(** * esp32-wifi-api: the connection supervisor of [wifi_api.c]

    A shallow embedding of [src/wifi_api.c].  The file keeps its state in
    five file-scope variables and drives the vendor SDK (ESP-IDF Wi-Fi,
    esp_netif, esp_event, FreeRTOS semaphores) through plain function
    calls.  The embedding threads those variables through a record, logs
    every SDK call in a trace, and takes what the SDK answers from an
    oracle, so that each theorem below speaks about the calls the C code
    issues, in the order it issues them. *)

From Stdlib Require Import ZArith List Lia Bool String.
From Stdlib Require Import Init.Byte.
Import ListNotations.
Open Scope string_scope.
Open Scope Z_scope.

(** ** C integers *)

Module CInt.
(** [int] on the ESP32 is 32 bits wide, two's complement. *)
Definition wrap (z : Z) : Z := (z + 2 ^ 31) mod 2 ^ 32 - 2 ^ 31.
End CInt.

(** [esp_err_t] is an [int]; [ESP_OK] and [ESP_FAIL] as in [esp_err.h]. *)
Definition esp_err_t := Z.
Definition ESP_OK : esp_err_t := 0.
Definition ESP_FAIL : esp_err_t := -1.

(** [static const uint8_t MAX_RETRY = 10;] *)
Definition MAX_RETRY : Z := 10.

(** ** C strings and [strncpy] *)

Definition is_nul (b : byte) : bool :=
  match b with x00 => true | _ => false end.

(** The characters of a C string: everything before the first NUL. *)
Fixpoint c_str (s : list byte) : list byte :=
  match s with
  | [] => []
  | b :: s' => if is_nul b then [] else b :: c_str s'
  end.

(** [strncpy(dest, src, n)]: the first [n] bytes of [dest] receive the
    characters of [src], padded with NUL when [src] is shorter than [n];
    no terminator is written when [src] has [n] characters or more.  The
    bytes of [dest] from index [n] on keep their value. *)
Definition strncpy (dest src : list byte) (n : nat) : list byte :=
  firstn n (c_str src ++ repeat x00 n) ++ skipn n dest.

(** ** The station configuration *)

(** The members of [wifi_config_t.sta] that the source names, and the
    others by member name. *)
Record wifi_config_t := mk_wifi_config {
  sta_ssid : list byte;               (* uint8_t ssid[32] *)
  sta_password : list byte;           (* uint8_t password[64] *)
  sta_threshold_authmode : Z;
  sta_other : string -> Z
}.

Definition SSID_SIZE : nat := 32.      (* sizeof(wc.sta.ssid) *)
Definition PASSWORD_SIZE : nat := 64.  (* sizeof(wc.sta.password) *)

Definition set_sta_ssid (v : list byte) (wc : wifi_config_t) :=
  mk_wifi_config v (sta_password wc) (sta_threshold_authmode wc) (sta_other wc).
Definition set_sta_password (v : list byte) (wc : wifi_config_t) :=
  mk_wifi_config (sta_ssid wc) v (sta_threshold_authmode wc) (sta_other wc).

(** Modelled from the spec: the auth-mode enumerators of the SDK's
    [wifi_auth_mode_t], which the repository uses but does not declare;
    the spec gives the codes 0, 1, 2, 3, 4 for Open, WEP, WPA-PSK,
    WPA2-PSK and WPA/WPA2-PSK. *)
Definition WIFI_AUTH_OPEN : Z := 0.
Definition WIFI_AUTH_WEP : Z := 1.
Definition WIFI_AUTH_WPA_PSK : Z := 2.
Definition WIFI_AUTH_WPA2_PSK : Z := 3.
Definition WIFI_AUTH_WPA_WPA2_PSK : Z := 4.

(** ** SDK calls *)

Inductive log_level := LOGI | LOGE.

(** The variadic arguments of a log call. *)
Inductive log_arg :=
| ArgStr (s : string)       (* a string literal of the source *)
| ArgBytes (s : list byte)  (* a byte buffer printed with %s *)
| ArgInt (z : Z).

(** One scanned access point: the members of [wifi_ap_record_t] that
    [wifi_api_scan] prints. *)
Record wifi_ap_record_t := mk_ap_record {
  ap_ssid : list byte;
  ap_rssi : Z;
  ap_authmode : Z;
  ap_primary : Z
}.

(** The two subscriptions [wifi_api_configure] installs:
    [(WIFI_EVENT, ESP_EVENT_ANY_ID)] and [(IP_EVENT, IP_EVENT_STA_GOT_IP)]. *)
Inductive subscription := WIFI_EVENT_ANY_ID | IP_EVENT_GOT_IP.

(** One constructor per SDK entry point the source calls, with the
    arguments that vary.  Handles and pointers are integers, [0] is NULL. *)
Inductive call :=
| nvs_flash_init
| xSemaphoreCreateBinary
| esp_netif_init
| esp_event_loop_create_default
| esp_wifi_init
| esp_netif_create_wifi
| esp_wifi_set_default_wifi_sta_handlers
| esp_wifi_set_storage
| esp_wifi_set_mode
| esp_wifi_start
| esp_event_handler_instance_register (sub : subscription)
| esp_event_handler_instance_unregister (sub : subscription) (instance : Z)
| esp_wifi_get_config
| esp_wifi_set_config (wc : wifi_config_t)
| esp_wifi_connect
| esp_wifi_disconnect
| xSemaphoreTake (h : Z)
| xSemaphoreGive (h : Z)
| vSemaphoreDelete (h : Z)
| esp_register_shutdown_handler
| esp_wifi_scan_start
| esp_wifi_scan_get_ap_num
| esp_wifi_scan_get_ap_records (number : Z)
| ESP_LOG (level : log_level) (fmt : string) (args : list log_arg).

(** What the SDK answers.  Every answer may depend on the calls made so
    far. *)
Record sdk_t := mk_sdk {
  sdk_ret : list call -> call -> Z;        (* returned [esp_err_t] *)
  sdk_handle : list call -> call -> Z;     (* returned or stored handle *)
  sdk_config : list call -> wifi_config_t; (* [*conf] after [esp_wifi_get_config] *)
  sdk_scan : list call -> list wifi_ap_record_t  (* the access points found *)
}.

(** ** The file-scope variables *)

Record state := mk_state {
  s_sta_netif : Z;
  s_ip_semaphore : Z;
  s_retry_num : Z;
  instance_any_id : Z;
  instance_got_ip : Z;
  (** the single slot of the binary semaphore behind [s_ip_semaphore] *)
  sem_given : bool;
  (** the SDK calls issued so far, oldest first *)
  trace : list call
}.

(** [static] initialisers of the source. *)
Definition initial_state : state :=
  mk_state 0 0 0 0 0 false [].

Definition set_s_sta_netif (v : Z) (st : state) : state :=
  mk_state v (s_ip_semaphore st) (s_retry_num st) (instance_any_id st)
           (instance_got_ip st) (sem_given st) (trace st).
Definition set_s_ip_semaphore (v : Z) (st : state) : state :=
  mk_state (s_sta_netif st) v (s_retry_num st) (instance_any_id st)
           (instance_got_ip st) (sem_given st) (trace st).
Definition set_s_retry_num (v : Z) (st : state) : state :=
  mk_state (s_sta_netif st) (s_ip_semaphore st) v (instance_any_id st)
           (instance_got_ip st) (sem_given st) (trace st).
Definition set_instance_any_id (v : Z) (st : state) : state :=
  mk_state (s_sta_netif st) (s_ip_semaphore st) (s_retry_num st) v
           (instance_got_ip st) (sem_given st) (trace st).
Definition set_instance_got_ip (v : Z) (st : state) : state :=
  mk_state (s_sta_netif st) (s_ip_semaphore st) (s_retry_num st)
           (instance_any_id st) v (sem_given st) (trace st).
Definition set_sem_given (v : bool) (st : state) : state :=
  mk_state (s_sta_netif st) (s_ip_semaphore st) (s_retry_num st)
           (instance_any_id st) (instance_got_ip st) v (trace st).

(** Append one call to the trace. *)
Definition record (c : call) (st : state) : state :=
  mk_state (s_sta_netif st) (s_ip_semaphore st) (s_retry_num st)
           (instance_any_id st) (instance_got_ip st) (sem_given st)
           (trace st ++ [c]).

(** [xSemaphoreGive(h)]: the slot becomes full (a give on a full binary
    semaphore changes nothing). *)
Definition give (h : Z) (st : state) : state :=
  record (xSemaphoreGive h) (set_sem_given true st).

(** ** Reading the trace *)

Definition is_give (c : call) : bool :=
  match c with xSemaphoreGive _ => true | _ => false end.
Definition is_connect (c : call) : bool :=
  match c with esp_wifi_connect => true | _ => false end.
Definition is_take (c : call) : bool :=
  match c with xSemaphoreTake _ => true | _ => false end.
Definition is_delete_of (h : Z) (c : call) : bool :=
  match c with vSemaphoreDelete h' => h' =? h | _ => false end.
Definition is_unregister_of (i : Z) (c : call) : bool :=
  match c with
  | esp_event_handler_instance_unregister _ i' => i' =? i
  | _ => false
  end.
Definition is_create (c : call) : bool :=
  match c with xSemaphoreCreateBinary => true | _ => false end.
Definition is_log (c : call) : bool :=
  match c with ESP_LOG _ _ _ => true | _ => false end.

Definition count (p : call -> bool) (tr : list call) : nat :=
  List.length (filter p tr).

(** How often the Completion Signal was raised, connect commands issued. *)
Definition raises (st : state) : nat := count is_give (trace st).
Definition connects (st : state) : nat := count is_connect (trace st).

(** The spec's four supervisor states.  The source keeps no state
    variable; the state is read off the last thing the supervisor did:
    a connect command puts it in [Connecting], the handler's two terminal
    branches announce themselves in the log. *)
Inductive phase := Idle | Connecting | Connected | Failed.

(** The SDK's [IPSTR] format macro. *)
Definition IPSTR : string := "%d.%d.%d.%d".

Fixpoint last_phase (newest_first : list call) : phase :=
  match newest_first with
  | [] => Idle
  | esp_wifi_connect :: _ => Connecting
  | ESP_LOG LOGI fmt _ :: older =>
      if (fmt =? "Connect to the AP fail")%string then Failed
      else if (fmt =? "Got ip:" ++ IPSTR)%string then Connected
      else last_phase older
  | _ :: older => last_phase older
  end.

Definition phase_of (st : state) : phase := last_phase (rev (trace st)).

(** ** Outcomes and the monad of the API functions *)

(** A call of an API function returns, or dies in [ESP_ERROR_CHECK]
    (which calls [abort()]), or never comes back from
    [xSemaphoreTake(..., portMAX_DELAY)]. *)
Inductive outcome (A : Type) : Type :=
| Returned (v : A) (st : state)
| Aborted (rc : esp_err_t) (st : state)
| Blocked (st : state).
Arguments Returned {A} v st.
Arguments Aborted {A} rc st.
Arguments Blocked {A} st.

Definition M (A : Type) : Type := state -> outcome A.

Definition ret {A} (v : A) : M A := fun st => Returned v st.
Definition bind {A B} (m : M A) (k : A -> M B) : M B :=
  fun st =>
    match m st with
    | Returned v st' => k v st'
    | Aborted rc st' => Aborted rc st'
    | Blocked st' => Blocked st'
    end.
Definition abort {A} (rc : esp_err_t) : M A := fun st => Aborted rc st.
Definition get {A} (f : state -> A) : M A := fun st => Returned (f st) st.
Definition modify (f : state -> state) : M unit :=
  fun st => Returned tt (f st).

Declare Scope wifi_scope.
Delimit Scope wifi_scope with wifi.
Notation "x <- m ;; k" := (bind m (fun x => k))
  (at level 61, m at next level, right associativity) : wifi_scope.
Notation "m ;; k" := (bind m (fun _ => k))
  (at level 61, right associativity) : wifi_scope.
Open Scope wifi_scope.

(** The state an outcome carries. *)
Definition final {A} (o : outcome A) : state :=
  match o with
  | Returned _ st | Aborted _ st | Blocked st => st
  end.

(** An API function keeps an observation [f] of the state when [f] reads
    the same before the call and in whatever state the call ends. *)
Definition keeps {A X : Type} (f : state -> X) (m : M A) : Prop :=
  forall st, f (final (m st)) = f st.

(** A notification as the handler receives it: [event_id], and the
    address that the handler reads through its cast of [event_data]. *)
Record event := mk_event {
  event_id : Z;       (* int32_t *)
  event_ip : Z        (* event->ip_info.ip.addr *)
}.

(** [IP2STR]: the four octets of an address, lowest first. *)
Definition IP2STR (ip : Z) : list log_arg :=
  [ArgInt (Z.land ip 255);
   ArgInt (Z.land (Z.shiftr ip 8) 255);
   ArgInt (Z.land (Z.shiftr ip 16) 255);
   ArgInt (Z.land (Z.shiftr ip 24) 255)].

(** ** Auth modes *)

(** The conditional chain of lines 90-100. *)
Definition authmode_str (authmode : Z) : string :=
  if authmode =? WIFI_AUTH_OPEN then "WIFI_AUTH_OPEN"
  else if authmode =? WIFI_AUTH_WEP then "WIFI_AUTH_WEP"
  else if authmode =? WIFI_AUTH_WPA_PSK then "WIFI_AUTH_WPA_PSK"
  else if authmode =? WIFI_AUTH_WPA2_PSK then "WIFI_AUTH_WPA2_PSK"
  else if authmode =? WIFI_AUTH_WPA_WPA2_PSK then "WIFI_AUTH_WPA_WPA2_PSK"
  else "WIFI_AUTH_UNKNOWN".

(** The spec's closed enumeration, and its classification in the spec's
    words: codes 0 to 4 are the five recognised modes, every other code is
    [Unknown]. *)
Inductive auth_class := Open | WEP | WPA_PSK | WPA2_PSK | WPA_WPA2_PSK | Unknown.

Definition spec_classify (code : Z) : auth_class :=
  match code with
  | 0 => Open
  | 1 => WEP
  | 2 => WPA_PSK
  | 3 => WPA2_PSK
  | 4 => WPA_WPA2_PSK
  | _ => Unknown
  end.

(** The name the source prints for each class. *)
Definition auth_class_name (c : auth_class) : string :=
  match c with
  | Open => "WIFI_AUTH_OPEN"
  | WEP => "WIFI_AUTH_WEP"
  | WPA_PSK => "WIFI_AUTH_WPA_PSK"
  | WPA2_PSK => "WIFI_AUTH_WPA2_PSK"
  | WPA_WPA2_PSK => "WIFI_AUTH_WPA_WPA2_PSK"
  | Unknown => "WIFI_AUTH_UNKNOWN"
  end.

Definition TAB : string := String (Ascii.ascii_of_nat 9) EmptyString.

(** [wifi_ap_record_t ap_info[10]] and [uint16_t number = 10]. *)
Definition AP_INFO_LEN : nat := 10.

(** One element of [ap_info] after the [memset]. *)
Definition zero_ap_record : wifi_ap_record_t :=
  mk_ap_record (repeat x00 33) 0 0 0.

(** The calls [wifi_api_scan] has made when it asks for the records. *)
Definition scan_prefix : list call :=
  [ESP_LOG LOGI "Starting Wi-Fi scan..." [];
   esp_wifi_scan_start;
   ESP_LOG LOGI "Max AP number ap_info can hold = %u" [ArgInt 10];
   esp_wifi_scan_get_ap_num].

(** The name an authmode line of the log prints; nothing for the other
    calls. *)
Definition authmode_line (c : call) : list string :=
  match c with
  | ESP_LOG LOGI fmt [ArgStr name] =>
      if (fmt =? "Authmode " ++ TAB ++ "%s")%string then [name] else []
  | _ => []
  end.

(** The names printed by the authmode lines of a trace, oldest first. *)
Definition authmode_lines (tr : list call) : list string :=
  flat_map authmode_line tr.

(** ** A concrete SDK for the examples *)

Module Esp32.
(** Event ids as ESP-IDF numbers them ([wifi_event_t], [ip_event_t]). *)
Definition WIFI_EVENT_STA_START : Z := 2.
Definition WIFI_EVENT_STA_DISCONNECTED : Z := 5.
Definition IP_EVENT_STA_GOT_IP : Z := 0.

Definition disconnected : event := mk_event WIFI_EVENT_STA_DISCONNECTED 0.
(** Address 192.168.1.23. *)
Definition got_ip : event := mk_event IP_EVENT_STA_GOT_IP 385984704.

Definition stored_wc : wifi_config_t :=
  mk_wifi_config (repeat x00 SSID_SIZE) (repeat x00 PASSWORD_SIZE)
                 WIFI_AUTH_WPA2_PSK (fun _ => 0).

Definition SEM : Z := 1073610000.
Definition handle_of (c : call) : Z :=
  match c with
  | xSemaphoreCreateBinary => SEM
  | esp_netif_create_wifi => 1073620000
  | esp_event_handler_instance_register WIFI_EVENT_ANY_ID => 1073630000
  | esp_event_handler_instance_register IP_EVENT_GOT_IP => 1073640000
  | _ => 0
  end.

(** Every call succeeds; the scan finds nothing. *)
Definition sdk_ok : sdk_t :=
  mk_sdk (fun _ _ => ESP_OK) (fun _ c => handle_of c)
         (fun _ => stored_wc) (fun _ => []).

(** Every call succeeds, except that the driver rejects a new
    configuration with [ESP_ERR_WIFI_NOT_INIT] (0x3001). *)
Definition sdk_set_config_fails : sdk_t :=
  mk_sdk (fun _ c => match c with esp_wifi_set_config _ => 12289 | _ => ESP_OK end)
         (fun _ c => handle_of c) (fun _ => stored_wc) (fun _ => []).

(** Every call succeeds, except that the event loop rejects a NULL
    instance handle with [ESP_ERR_INVALID_ARG] (0x102). *)
Definition sdk_null_instance_rejected : sdk_t :=
  mk_sdk (fun _ c =>
            match c with
            | esp_event_handler_instance_unregister _ 0 => 258
            | _ => ESP_OK
            end)
         (fun _ c => handle_of c) (fun _ => stored_wc) (fun _ => []).

(** No semaphore can be allocated. *)
Definition sdk_no_semaphore : sdk_t :=
  mk_sdk (fun _ _ => ESP_OK) (fun _ _ => 0)
         (fun _ => stored_wc) (fun _ => []).

(** A scan that finds six access points with the auth-mode codes
    0, 1, 2, 3, 4 and 99. *)
Definition six_aps : list wifi_ap_record_t :=
  map (fun code => mk_ap_record [x41; x50; x00] (-60) code 6)
      [0; 1; 2; 3; 4; 99].
Definition sdk_six_aps : sdk_t :=
  mk_sdk (fun _ _ => ESP_OK)
         (fun _ c => match c with esp_wifi_scan_get_ap_num => 6 | _ => handle_of c end)
         (fun _ => stored_wc) (fun _ => six_aps).

(** A scan that finds twelve access points. *)
Definition sdk_twelve_aps : sdk_t :=
  mk_sdk (fun _ _ => ESP_OK)
         (fun _ c => match c with esp_wifi_scan_get_ap_num => 12 | _ => handle_of c end)
         (fun _ => stored_wc) (fun _ => (six_aps ++ six_aps)%list).

Definition ssid : list byte := [x68; x6f; x6d; x65].                (* home *)
Definition password : list byte := [x73; x65; x63; x72; x65; x74].  (* secret *)
End Esp32.

(** ** Further observations of the trace *)

(** An API function emits only calls satisfying [P] when whatever it adds
    to the trace satisfies [P], however the call ends. *)
Definition emits {A : Type} (P : call -> bool) (m : M A) : Prop :=
  forall st,
    exists ext,
      trace (final (m st)) = (trace st ++ ext)%list /\ forallb P ext = true.

(** The SDK entry points of [wifi_api_scan], and the log. *)
Definition is_scan_call (c : call) : bool :=
  match c with
  | esp_wifi_scan_start
  | esp_wifi_scan_get_ap_num
  | esp_wifi_scan_get_ap_records _
  | ESP_LOG _ _ _ => true
  | _ => false
  end.

(** The SDK entry points of [wifi_api_disconnect], and the log. *)
Definition is_release_call (c : call) : bool :=
  match c with
  | esp_event_handler_instance_unregister _ _
  | vSemaphoreDelete _
  | esp_wifi_disconnect
  | ESP_LOG _ _ _ => true
  | _ => false
  end.

Definition is_register (c : call) : bool :=
  match c with esp_event_handler_instance_register _ => true | _ => false end.
Definition is_shutdown_registration (c : call) : bool :=
  match c with esp_register_shutdown_handler => true | _ => false end.
Definition is_sdk_disconnect (c : call) : bool :=
  match c with esp_wifi_disconnect => true | _ => false end.

(** An SDK none of whose calls reports an error, and one that always has
    a semaphore to hand out. *)
Definition sdk_all_ok (sdk : sdk_t) : Prop :=
  forall tr c, sdk_ret sdk tr c = ESP_OK.
Definition sdk_has_semaphore (sdk : sdk_t) : Prop :=
  forall tr, sdk_handle sdk tr xSemaphoreCreateBinary <> 0.

(** ** [wifi_api_shutdown] (lines 166-174)

    The shutdown handler runs when the process goes down, after the
    supervisor's last API call; its SDK calls are logged on their own.
    Of the file-scope variables it reads and writes [s_sta_netif] only. *)

Inductive teardown_call :=
| SHUTDOWN_LOG (fmt : string)
| esp_wifi_stop
| esp_wifi_deinit
| esp_wifi_clear_default_wifi_driver_and_handlers (netif : Z)
| esp_netif_destroy (netif : Z).

(** How [wifi_api_shutdown] ends: it returns, or dies in
    [ESP_ERROR_CHECK]; either way with a value of [s_sta_netif] and the
    calls it made. *)
Inductive teardown :=
| TornDown (netif : Z) (calls : list teardown_call)
| TeardownAborted (rc : esp_err_t) (netif : Z) (calls : list teardown_call).

Definition wifi_api_shutdown
           (answer : list teardown_call -> teardown_call -> esp_err_t)
           (netif : Z) : teardown :=
  let t0 := [SHUTDOWN_LOG "Shutting down Wi-Fi..."] in
  let rc := answer t0 esp_wifi_stop in
  let t1 := (t0 ++ [esp_wifi_stop])%list in
  if negb (rc =? ESP_OK) then TeardownAborted rc netif t1 else
  let rc := answer t1 esp_wifi_deinit in
  let t2 := (t1 ++ [esp_wifi_deinit])%list in
  if negb (rc =? ESP_OK) then TeardownAborted rc netif t2 else
  let c := esp_wifi_clear_default_wifi_driver_and_handlers netif in
  let rc := answer t2 c in
  let t3 := (t2 ++ [c])%list in
  if negb (rc =? ESP_OK) then TeardownAborted rc netif t3 else
  TornDown 0 (t3 ++ [esp_netif_destroy netif])%list.

(** The complete teardown of the interface [netif]. *)
Definition full_teardown (netif : Z) : list teardown_call :=
  [SHUTDOWN_LOG "Shutting down Wi-Fi...";
   esp_wifi_stop;
   esp_wifi_deinit;
   esp_wifi_clear_default_wifi_driver_and_handlers netif;
   esp_netif_destroy netif].

Definition is_netif_destroy (c : teardown_call) : bool :=
  match c with esp_netif_destroy _ => true | _ => false end.

(** The file-scope variables and the semaphore slot read the same in
    [st'] as in [st]. *)
Definition same_variables (st st' : state) : Prop :=
  s_sta_netif st' = s_sta_netif st /\
  s_ip_semaphore st' = s_ip_semaphore st /\
  s_retry_num st' = s_retry_num st /\
  instance_any_id st' = instance_any_id st /\
  instance_got_ip st' = instance_got_ip st /\
  sem_given st' = sem_given st.

(** How often a list of teardown calls destroys an interface. *)
Definition count_occ_destroy (calls : list teardown_call) : nat :=
  List.length (filter is_netif_destroy calls).

(** The four handles the supervisor keeps. *)
Definition handles (st : state) : Z * Z * Z * Z :=
  (s_sta_netif st, s_ip_semaphore st, instance_any_id st, instance_got_ip st).

(** What the event handler may issue when the stored semaphore is [h]:
    connect commands, gives on [h], log lines. *)
Definition is_handler_call (h : Z) (c : call) : bool :=
  match c with
  | esp_wifi_connect => true
  | xSemaphoreGive h' => h' =? h
  | ESP_LOG _ _ _ => true
  | _ => false
  end.

(** ** More scenario data *)

Module Scenario.
(** A station-started notification and a notification the handler has no
    case for ([WIFI_EVENT_STA_CONNECTED], 4). *)
Definition started : event := mk_event Esp32.WIFI_EVENT_STA_START 0.
Definition connected : event := mk_event 4 0.

(** Thirty-two and sixty-four characters, no terminator in sight. *)
Definition long_ssid : list byte := repeat x41 32.
Definition long_password : list byte := repeat x70 64.

(** A current configuration whose SSID and password fill their
    members. *)
Definition full_wc : wifi_config_t :=
  mk_wifi_config (repeat x42 32) (repeat x71 64) WIFI_AUTH_WPA2_PSK
                 (fun _ => 0).

(** A teardown in which deinitialising the driver fails with
    [ESP_ERR_WIFI_NOT_INIT]. *)
Definition deinit_fails (before : list teardown_call) (c : teardown_call)
  : esp_err_t :=
  match c with esp_wifi_deinit => 12289 | _ => ESP_OK end.
End Scenario.

(** ** The code of [wifi_api.c] *)

Section Supervisor.

(** The three event ids the handler switches on are enumerators of the
    SDK's headers.  The C compiler accepts the [switch] only if its case
    labels are pairwise different. *)
Variables WIFI_EVENT_STA_START WIFI_EVENT_STA_DISCONNECTED
          IP_EVENT_STA_GOT_IP : Z.
Hypothesis case_labels_distinct :
  WIFI_EVENT_STA_START <> WIFI_EVENT_STA_DISCONNECTED /\
  WIFI_EVENT_STA_START <> IP_EVENT_STA_GOT_IP /\
  WIFI_EVENT_STA_DISCONNECTED <> IP_EVENT_STA_GOT_IP.

Variable sdk : sdk_t.

(** *** SDK calls in the monad *)

(** A call whose [esp_err_t] result the source looks at or drops. *)
Definition sdk_call (c : call) : M esp_err_t :=
  fun st => Returned (sdk_ret sdk (trace st) c) (record c st).

(** A call that hands back a handle or a count. *)
Definition sdk_new (c : call) : M Z :=
  fun st => Returned (sdk_handle sdk (trace st) c) (record c st).

(** A call that returns an error code and stores a number through a
    pointer argument. *)
Definition sdk_out (c : call) : M (esp_err_t * Z) :=
  fun st =>
    Returned (sdk_ret sdk (trace st) c, sdk_handle sdk (trace st) c)
             (record c st).

(** [esp_event_handler_instance_register(..., &instance)]: the handle is
    stored through the pointer, the error code is returned. *)
Definition register (sub : subscription) (store : Z -> state -> state)
  : M esp_err_t :=
  fun st =>
    let c := esp_event_handler_instance_register sub in
    Returned (sdk_ret sdk (trace st) c)
             (record c (store (sdk_handle sdk (trace st) c) st)).

Definition ESP_ERROR_CHECK (m : M esp_err_t) : M unit :=
  rc <- m ;; if rc =? ESP_OK then ret tt else abort rc.

Definition ESP_LOGI (fmt : string) (args : list log_arg) : M unit :=
  modify (record (ESP_LOG LOGI fmt args)).
Definition ESP_LOGE (fmt : string) (args : list log_arg) : M unit :=
  modify (record (ESP_LOG LOGE fmt args)).

(** *** [wifi_api_event_handler] (lines 117-156) *)

Definition wifi_api_event_handler (ev : event) (st : state) : state :=
  if event_id ev =? WIFI_EVENT_STA_START then
    record esp_wifi_connect st
  else if event_id ev =? WIFI_EVENT_STA_DISCONNECTED then
    if s_retry_num st <? MAX_RETRY then
      let st1 := record esp_wifi_connect st in
      let st2 := set_s_retry_num (CInt.wrap (s_retry_num st1 + 1)) st1 in
      record (ESP_LOG LOGI "Retry to connect to the AP" []) st2
    else
      let st1 := give (s_ip_semaphore st) st in
      record (ESP_LOG LOGI "Connect to the AP fail" []) st1
  else if event_id ev =? IP_EVENT_STA_GOT_IP then
    let st1 := set_s_retry_num 0 st in
    let st2 :=
      record (ESP_LOG LOGI ("Got ip:" ++ IPSTR) (IP2STR (event_ip ev))) st1 in
    give (s_ip_semaphore st2) st2
  else st.

(** A disconnect notification, an address-acquired notification. *)
Definition is_disconnected (ev : event) : Prop :=
  event_id ev = WIFI_EVENT_STA_DISCONNECTED.
Definition is_got_ip (ev : event) : Prop :=
  event_id ev = IP_EVENT_STA_GOT_IP.

(** The handler run on a sequence of notifications, oldest first. *)
Definition deliver (evs : list event) (st : state) : state :=
  fold_left (fun s ev => wifi_api_event_handler ev s) evs st.

(** *** [xSemaphoreTake(s_ip_semaphore, portMAX_DELAY)] (line 254)

    The caller sleeps until the slot is full and empties it.  While it
    sleeps the SDK's event task runs the handler on the notifications
    [evs], one after the other; the caller wakes at the first one that
    fills the slot, and never if none does. *)
Fixpoint sleep_until_given (evs : list event) (st : state) : outcome unit :=
  if sem_given st then Returned tt (set_sem_given false st)
  else
    match evs with
    | [] => Blocked st
    | ev :: evs' => sleep_until_given evs' (wifi_api_event_handler ev st)
    end.

Definition take_portMAX_DELAY (evs : list event) : M unit :=
  fun st => sleep_until_given evs (record (xSemaphoreTake (s_ip_semaphore st)) st).

(** *** [wifi_api_configure] (lines 191-263) *)

Definition initialize_nvs : M unit :=
  ESP_ERROR_CHECK (sdk_call nvs_flash_init).

(** The configuration built at lines 225-234. *)
Definition configure_wc (ssid password : list byte) : wifi_config_t :=
  let wc :=
    mk_wifi_config (repeat x00 SSID_SIZE) (repeat x00 PASSWORD_SIZE)
                   WIFI_AUTH_WPA2_PSK (fun _ => 0) in
  let wc := set_sta_ssid (strncpy (sta_ssid wc) ssid SSID_SIZE) wc in
  set_sta_password (strncpy (sta_password wc) password PASSWORD_SIZE) wc.

(** Lines 193-249: everything up to the connect command.  The result is
    [Some ESP_FAIL] when the function has already returned at line 200,
    [None] when control reaches line 254. *)
Definition configure_until_take (ssid password : list byte)
  : M (option esp_err_t) :=
  initialize_nvs ;;
  ESP_LOGI "Configuring Wi-Fi..." [] ;;
  h <- sdk_new xSemaphoreCreateBinary ;;
  modify (fun st => set_sem_given false (set_s_ip_semaphore h st)) ;;
  if h =? 0 then
    ESP_LOGE "Failed to create semaphore" [] ;;
    ret (Some ESP_FAIL)
  else
    ESP_ERROR_CHECK (sdk_call esp_netif_init) ;;
    ESP_ERROR_CHECK (sdk_call esp_event_loop_create_default) ;;
    ESP_ERROR_CHECK (sdk_call esp_wifi_init) ;;
    p <- sdk_new esp_netif_create_wifi ;;
    modify (set_s_sta_netif p) ;;
    _ <- sdk_call esp_wifi_set_default_wifi_sta_handlers ;;
    ESP_ERROR_CHECK (sdk_call esp_wifi_set_storage) ;;
    ESP_ERROR_CHECK (sdk_call esp_wifi_set_mode) ;;
    ESP_ERROR_CHECK (sdk_call esp_wifi_start) ;;
    let wc := configure_wc ssid password in
    ESP_ERROR_CHECK (register WIFI_EVENT_ANY_ID set_instance_any_id) ;;
    ESP_ERROR_CHECK (register IP_EVENT_GOT_IP set_instance_got_ip) ;;
    ESP_LOGI "Connecting to %s..." [ArgBytes (sta_ssid wc)] ;;
    ESP_ERROR_CHECK (sdk_call (esp_wifi_set_config wc)) ;;
    ESP_ERROR_CHECK (sdk_call esp_wifi_connect) ;;
    ret None.

(** Lines 256-262: what the woken caller does. *)
Definition configure_after_take : M esp_err_t :=
  r <- get s_retry_num ;;
  if r >? MAX_RETRY then ret ESP_FAIL
  else
    ESP_ERROR_CHECK (sdk_call esp_register_shutdown_handler) ;;
    ret ESP_OK.

(** [evs]: the notifications the SDK delivers while the caller is
    blocked at line 254. *)
Definition wifi_api_configure (ssid password : list byte)
           (evs : list event) : M esp_err_t :=
  early <- configure_until_take ssid password ;;
  match early with
  | Some rc => ret rc
  | None =>
      take_portMAX_DELAY evs ;;
      configure_after_take
  end.

(** *** [wifi_api_disconnect] (lines 265-277) *)

Definition wifi_api_disconnect : M esp_err_t :=
  ESP_LOGI "Disconnecting Wi-Fi..." [] ;;
  any_id <- get instance_any_id ;;
  ESP_ERROR_CHECK
    (sdk_call (esp_event_handler_instance_unregister WIFI_EVENT_ANY_ID any_id)) ;;
  got_ip <- get instance_got_ip ;;
  ESP_ERROR_CHECK
    (sdk_call (esp_event_handler_instance_unregister IP_EVENT_GOT_IP got_ip)) ;;
  h <- get s_ip_semaphore ;;
  (if h =? 0 then ret tt else modify (record (vSemaphoreDelete h))) ;;
  sdk_call esp_wifi_disconnect.

(** *** [wifi_api_alter_sta] (lines 279-294) *)

Definition esp_wifi_get_config_into_wc : M wifi_config_t :=
  fun st => Returned (sdk_config sdk (trace st)) (record esp_wifi_get_config st).

(** The two [strncpy] of lines 286-287. *)
Definition alter_wc (new_ssid new_password : list byte)
           (wc : wifi_config_t) : wifi_config_t :=
  let wc :=
    set_sta_ssid (strncpy (sta_ssid wc) new_ssid (SSID_SIZE - 1)) wc in
  set_sta_password
    (strncpy (sta_password wc) new_password (PASSWORD_SIZE - 1)) wc.

Definition wifi_api_alter_sta (new_ssid new_password : list byte)
  : M esp_err_t :=
  ESP_LOGI "Updating STA configuration..." [] ;;
  wc <- esp_wifi_get_config_into_wc ;;
  let wc := alter_wc new_ssid new_password wc in
  _ <- sdk_call (esp_wifi_set_config wc) ;;
  _ <- sdk_call esp_wifi_disconnect ;;
  _ <- sdk_call esp_wifi_connect ;;
  ret ESP_OK.

(** *** [wifi_api_scan] (lines 65-103) *)

(** Modelled from the spec: [esp_wifi_scan_get_ap_records(&number,
    ap_info)] belongs to the SDK; the spec has it hand over at most a
    fixed-capacity batch of the records found.  It fills the front of
    [ap_info] with at most [number] records and leaves their count in
    [number]. *)
Definition esp_wifi_scan_get_ap_records_into
           (number : Z) (ap_info : list wifi_ap_record_t)
  : M (esp_err_t * Z * list wifi_ap_record_t) :=
  fun st =>
    let c := esp_wifi_scan_get_ap_records number in
    let batch := firstn (Z.to_nat number) (sdk_scan sdk (trace st)) in
    Returned (sdk_ret sdk (trace st) c,
              Z.of_nat (List.length batch),
              (batch ++ skipn (List.length batch) ap_info)%list)
             (record c st).

(** The body of the [for] loop, lines 87-101. *)
Definition log_ap_record (ap : wifi_ap_record_t) : M unit :=
  ESP_LOGI ("SSID " ++ TAB ++ TAB ++ "%s") [ArgBytes (ap_ssid ap)] ;;
  ESP_LOGI ("RSSI " ++ TAB ++ TAB ++ "%d") [ArgInt (ap_rssi ap)] ;;
  ESP_LOGI ("Authmode " ++ TAB ++ "%s") [ArgStr (authmode_str (ap_authmode ap))] ;;
  ESP_LOGI ("Channel " ++ TAB ++ TAB ++ "%d") [ArgInt (ap_primary ap)].

Fixpoint log_ap_records (aps : list wifi_ap_record_t) : M unit :=
  match aps with
  | [] => ret tt
  | ap :: aps' => log_ap_record ap ;; log_ap_records aps'
  end.

Definition wifi_api_scan : M unit :=
  ESP_LOGI "Starting Wi-Fi scan..." [] ;;
  let number := Z.of_nat AP_INFO_LEN in
  let ap_info := repeat zero_ap_record AP_INFO_LEN in
  ESP_ERROR_CHECK (sdk_call esp_wifi_scan_start) ;;
  ESP_LOGI "Max AP number ap_info can hold = %u" [ArgInt number] ;;
  n <- sdk_out esp_wifi_scan_get_ap_num ;;
  let '(rc, ap_count) := n in
  ESP_ERROR_CHECK (ret rc) ;;
  r <- esp_wifi_scan_get_ap_records_into number ap_info ;;
  let '(rc, number, ap_info) := r in
  ESP_ERROR_CHECK (ret rc) ;;
  ESP_LOGI "Total APs scanned = %u, actual AP number ap_info holds = %u"
           [ArgInt ap_count; ArgInt number] ;;
  log_ap_records (firstn (Z.to_nat number) ap_info).

(** A station-started notification, and one the handler has no case
    for. *)
Definition is_sta_start (ev : event) : Prop :=
  event_id ev = WIFI_EVENT_STA_START.
Definition is_unhandled (ev : event) : Prop :=
  event_id ev <> WIFI_EVENT_STA_START /\
  event_id ev <> WIFI_EVENT_STA_DISCONNECTED /\
  event_id ev <> IP_EVENT_STA_GOT_IP.

(** A notification that does not carry an address, and how many of a
    sequence are disconnects, station starts. *)
Definition no_address (ev : event) : Prop :=
  event_id ev <> IP_EVENT_STA_GOT_IP.
Definition disconnected_in (evs : list event) : nat :=
  List.length
    (filter (fun ev => event_id ev =? WIFI_EVENT_STA_DISCONNECTED) evs).
Definition sta_start_in (evs : list event) : nat :=
  List.length (filter (fun ev => event_id ev =? WIFI_EVENT_STA_START) evs).

(** The calls of lines 193-249 when every check passes, and those of a
    call that returns at line 200. *)
Definition configure_calls (ssid password : list byte) : list call :=
  [nvs_flash_init;
   ESP_LOG LOGI "Configuring Wi-Fi..." [];
   xSemaphoreCreateBinary;
   esp_netif_init;
   esp_event_loop_create_default;
   esp_wifi_init;
   esp_netif_create_wifi;
   esp_wifi_set_default_wifi_sta_handlers;
   esp_wifi_set_storage;
   esp_wifi_set_mode;
   esp_wifi_start;
   esp_event_handler_instance_register WIFI_EVENT_ANY_ID;
   esp_event_handler_instance_register IP_EVENT_GOT_IP;
   ESP_LOG LOGI "Connecting to %s..."
           [ArgBytes (sta_ssid (configure_wc ssid password))];
   esp_wifi_set_config (configure_wc ssid password);
   esp_wifi_connect].

Definition failed_creation_calls : list call :=
  [nvs_flash_init;
   ESP_LOG LOGI "Configuring Wi-Fi..." [];
   xSemaphoreCreateBinary;
   ESP_LOG LOGE "Failed to create semaphore" []].

(** *** The states the supervisor can be in

    From the static initialisers, by any sequence of notifications and
    API calls (the notifications of a blocked [wifi_api_configure] are
    delivered inside the call). *)
Inductive reachable : state -> Prop :=
| reach_init : reachable initial_state
| reach_event ev st :
    reachable st -> reachable (wifi_api_event_handler ev st)
| reach_configure ssid password evs st :
    reachable st ->
    reachable (final (wifi_api_configure ssid password evs st))
| reach_disconnect st :
    reachable st -> reachable (final (wifi_api_disconnect st))
| reach_alter new_ssid new_password st :
    reachable st ->
    reachable (final (wifi_api_alter_sta new_ssid new_password st))
| reach_scan st :
    reachable st -> reachable (final (wifi_api_scan st)).

(** ** Properties *)

(** *** Traces and counters *)

Lemma wrap_small z : - 2 ^ 31 <= z < 2 ^ 31 -> CInt.wrap z = z.
Proof using.
  intros H. unfold CInt.wrap.
  rewrite Z.mod_small by lia. lia.
Qed.

Lemma count_app p (a b : list call) :
  count p (a ++ b) = (count p a + count p b)%nat.
Proof using.
  unfold count. now rewrite filter_app, length_app.
Qed.

Lemma last_phase_snoc (tr : list call) (c : call) :
  last_phase (rev (tr ++ [c])) = last_phase (c :: rev tr).
Proof using.
  now rewrite rev_app_distr.
Qed.

(** *** The three branches of the handler *)

Lemma handler_disconnected_below ev st :
  event_id ev = WIFI_EVENT_STA_DISCONNECTED ->
  s_retry_num st < MAX_RETRY ->
  wifi_api_event_handler ev st =
  record (ESP_LOG LOGI "Retry to connect to the AP" [])
    (set_s_retry_num (CInt.wrap (s_retry_num st + 1))
       (record esp_wifi_connect st)).
Proof using case_labels_distinct.
  intros Hid Hlt. unfold wifi_api_event_handler. rewrite Hid.
  destruct (Z.eqb_spec WIFI_EVENT_STA_DISCONNECTED WIFI_EVENT_STA_START) as [E|_].
  - exfalso. destruct case_labels_distinct as [H _]. now apply H.
  - rewrite Z.eqb_refl.
    destruct (Z.ltb_spec (s_retry_num st) MAX_RETRY); [reflexivity | lia].
Qed.

Lemma handler_disconnected_exhausted ev st :
  event_id ev = WIFI_EVENT_STA_DISCONNECTED ->
  MAX_RETRY <= s_retry_num st ->
  wifi_api_event_handler ev st =
  record (ESP_LOG LOGI "Connect to the AP fail" [])
    (give (s_ip_semaphore st) st).
Proof using case_labels_distinct.
  intros Hid Hge. unfold wifi_api_event_handler. rewrite Hid.
  destruct (Z.eqb_spec WIFI_EVENT_STA_DISCONNECTED WIFI_EVENT_STA_START) as [E|_].
  - exfalso. destruct case_labels_distinct as [H _]. now apply H.
  - rewrite Z.eqb_refl.
    destruct (Z.ltb_spec (s_retry_num st) MAX_RETRY); [lia | reflexivity].
Qed.

Lemma handler_got_ip ev st :
  event_id ev = IP_EVENT_STA_GOT_IP ->
  wifi_api_event_handler ev st =
  give (s_ip_semaphore st)
    (record (ESP_LOG LOGI ("Got ip:" ++ IPSTR) (IP2STR (event_ip ev)))
       (set_s_retry_num 0 st)).
Proof using case_labels_distinct.
  intros Hid. unfold wifi_api_event_handler. rewrite Hid.
  destruct case_labels_distinct as (_ & H1 & H2).
  destruct (Z.eqb_spec IP_EVENT_STA_GOT_IP WIFI_EVENT_STA_START) as [E|_];
    [now exfalso; apply H1 |].
  destruct (Z.eqb_spec IP_EVENT_STA_GOT_IP WIFI_EVENT_STA_DISCONNECTED) as [E|_];
    [now exfalso; apply H2 |].
  now rewrite Z.eqb_refl.
Qed.

(** The counter after one handler run: unchanged, reset, or one more
    under the guard. *)
Lemma handler_retry_cases ev st :
  0 <= s_retry_num st <= MAX_RETRY ->
  let r' := s_retry_num (wifi_api_event_handler ev st) in
  r' = s_retry_num st \/ r' = 0 \/
  (s_retry_num st < MAX_RETRY /\ r' = s_retry_num st + 1).
Proof using.
  clear case_labels_distinct.
  intros Hb. unfold wifi_api_event_handler.
  destruct (event_id ev =? WIFI_EVENT_STA_START); [now left |].
  destruct (event_id ev =? WIFI_EVENT_STA_DISCONNECTED).
  - destruct (Z.ltb_spec (s_retry_num st) MAX_RETRY) as [Hlt|Hge].
    + right; right. split; [exact Hlt |]. cbn.
      apply wrap_small. unfold MAX_RETRY in *. lia.
    + now left.
  - destruct (event_id ev =? IP_EVENT_STA_GOT_IP); [right |]; now left.
Qed.

Lemma handler_retry_bounds ev st :
  0 <= s_retry_num st <= MAX_RETRY ->
  0 <= s_retry_num (wifi_api_event_handler ev st) <= MAX_RETRY.
Proof using.
  clear case_labels_distinct.
  intros Hb. pose proof (handler_retry_cases ev st Hb) as H. cbv zeta in H.
  unfold MAX_RETRY in *. lia.
Qed.

Lemma deliver_retry_bounds evs : forall st,
  0 <= s_retry_num st <= MAX_RETRY ->
  0 <= s_retry_num (deliver evs st) <= MAX_RETRY.
Proof using.
  induction evs as [|ev evs IH]; intros st Hb; [exact Hb |].
  apply IH, handler_retry_bounds, Hb.
Qed.

Lemma deliver_app evs1 evs2 st :
  deliver (evs1 ++ evs2) st = deliver evs2 (deliver evs1 st).
Proof using.
  apply fold_left_app.
Qed.

(** *** Disconnect notifications *)

Lemma retry_step ev st :
  is_disconnected ev ->
  0 <= s_retry_num st < MAX_RETRY ->
  let st' := wifi_api_event_handler ev st in
  trace st' =
    (trace st ++
     [esp_wifi_connect; ESP_LOG LOGI "Retry to connect to the AP" []])%list /\
  connects st' = S (connects st) /\
  s_retry_num st' = s_retry_num st + 1 /\
  raises st' = raises st /\
  sem_given st' = sem_given st /\
  phase_of st' = Connecting.
Proof using case_labels_distinct.
  intros Hev Hr st'. subst st'.
  rewrite (handler_disconnected_below ev st Hev) by lia.
  assert (Htr : trace (record (ESP_LOG LOGI "Retry to connect to the AP" [])
                   (set_s_retry_num (CInt.wrap (s_retry_num st + 1))
                      (record esp_wifi_connect st))) =
                (trace st ++
                 [esp_wifi_connect;
                  ESP_LOG LOGI "Retry to connect to the AP" []])%list).
  { cbn [trace record set_s_retry_num]. now rewrite <- app_assoc. }
  split; [exact Htr |].
  unfold connects, raises, phase_of. rewrite Htr, !count_app.
  repeat split.
  - cbn. lia.
  - cbn [s_retry_num record set_s_retry_num].
    apply wrap_small. clear case_labels_distinct. unfold MAX_RETRY in *. lia.
  - cbn. lia.
  - now rewrite rev_app_distr.
Qed.

Lemma fail_step ev st :
  is_disconnected ev ->
  MAX_RETRY <= s_retry_num st ->
  let st' := wifi_api_event_handler ev st in
  trace st' =
    (trace st ++
     [xSemaphoreGive (s_ip_semaphore st);
      ESP_LOG LOGI "Connect to the AP fail" []])%list /\
  raises st' = S (raises st) /\
  connects st' = connects st /\
  s_retry_num st' = s_retry_num st /\
  sem_given st' = true /\
  phase_of st' = Failed.
Proof using case_labels_distinct.
  intros Hev Hr st'. subst st'.
  rewrite (handler_disconnected_exhausted ev st Hev Hr).
  assert (Htr : trace (record (ESP_LOG LOGI "Connect to the AP fail" [])
                   (give (s_ip_semaphore st) st)) =
                (trace st ++
                 [xSemaphoreGive (s_ip_semaphore st);
                  ESP_LOG LOGI "Connect to the AP fail" []])%list).
  { cbn [trace record give set_sem_given]. now rewrite <- app_assoc. }
  split; [exact Htr |].
  unfold connects, raises, phase_of. rewrite Htr, !count_app.
  repeat split.
  - cbn. lia.
  - cbn. lia.
  - now rewrite rev_app_distr.
Qed.

Lemma got_ip_step ev st :
  is_got_ip ev ->
  let st' := wifi_api_event_handler ev st in
  trace st' =
    (trace st ++
     [ESP_LOG LOGI ("Got ip:" ++ IPSTR) (IP2STR (event_ip ev));
      xSemaphoreGive (s_ip_semaphore st)])%list /\
  raises st' = S (raises st) /\
  connects st' = connects st /\
  s_retry_num st' = 0 /\
  sem_given st' = true /\
  phase_of st' = Connected.
Proof using case_labels_distinct.
  intros Hev st'. subst st'.
  rewrite (handler_got_ip ev st Hev).
  assert (Htr : trace (give (s_ip_semaphore st)
                   (record (ESP_LOG LOGI ("Got ip:" ++ IPSTR)
                                    (IP2STR (event_ip ev)))
                      (set_s_retry_num 0 st))) =
                (trace st ++
                 [ESP_LOG LOGI ("Got ip:" ++ IPSTR) (IP2STR (event_ip ev));
                  xSemaphoreGive (s_ip_semaphore st)])%list).
  { cbn [trace record give set_sem_given set_s_retry_num].
    now rewrite <- app_assoc. }
  split; [exact Htr |].
  unfold connects, raises, phase_of. rewrite Htr, !count_app.
  repeat split.
  - cbn. lia.
  - cbn. lia.
  - now rewrite rev_app_distr.
Qed.

(** A run of disconnect notifications that stays within the budget
    retries every time and never raises the signal. *)
Lemma deliver_disconnects evs : forall st,
  Forall is_disconnected evs ->
  0 <= s_retry_num st ->
  s_retry_num st + Z.of_nat (List.length evs) <= MAX_RETRY ->
  let st' := deliver evs st in
  s_retry_num st' = s_retry_num st + Z.of_nat (List.length evs) /\
  raises st' = raises st /\
  sem_given st' = sem_given st /\
  connects st' = (connects st + List.length evs)%nat.
Proof using case_labels_distinct.
  induction evs as [|ev evs IH]; intros st Hall H0 Hle.
  - cbn. repeat split; lia.
  - inversion Hall as [|? ? Hev Hall']; subst.
    assert (Hr : 0 <= s_retry_num st < MAX_RETRY).
    { cbn [List.length] in Hle. lia. }
    destruct (retry_step ev st Hev Hr) as (_ & Hc & Hn & Hg & Hs & _).
    cbn [deliver fold_left]. fold (deliver evs (wifi_api_event_handler ev st)).
    destruct (IH (wifi_api_event_handler ev st) Hall') as (Hn' & Hg' & Hs' & Hc').
    + lia.
    + cbn [List.length] in Hle. lia.
    + cbv zeta. rewrite Hn', Hg', Hs', Hc', Hn, Hg, Hs, Hc.
      cbn [List.length]. repeat split; lia.
Qed.

(** C4.  For every retry count [r] with [0 <= r < MAX_RETRY], a
    disconnect notification received while [s_retry_num = r] issues one
    more connect command, leaves [s_retry_num = r + 1] and does not raise
    the Completion Signal: the handler adds exactly the connect command
    and its log line to the trace, the semaphore slot keeps its value and
    the supervisor is in [Connecting]. *)
Theorem disconnect_below_budget_retries (r : Z) (ev : event) (st : state) :
  0 <= r < MAX_RETRY ->
  s_retry_num st = r ->
  is_disconnected ev ->
  let st' := wifi_api_event_handler ev st in
  trace st' =
    (trace st ++
     [esp_wifi_connect; ESP_LOG LOGI "Retry to connect to the AP" []])%list /\
  connects st' = S (connects st) /\
  s_retry_num st' = r + 1 /\
  raises st' = raises st /\
  sem_given st' = sem_given st /\
  phase_of st' = Connecting.
Proof using case_labels_distinct.
  intros Hr Hst Hev. subst r. now apply retry_step.
Qed.

(** C3.  A disconnect notification arriving while
    [s_retry_num = MAX_RETRY] raises the Completion Signal exactly once,
    issues no connect command and leaves the supervisor in [Failed] with
    the counter unchanged.  In particular, from the initial state, ten
    disconnect notifications raise nothing, and the eleventh leaves
    [Failed], [s_retry_num = 10] and exactly one raise. *)
Theorem disconnect_at_budget_fails :
  MAX_RETRY = 10 /\
  (forall ev st,
      s_retry_num st = MAX_RETRY ->
      is_disconnected ev ->
      let st' := wifi_api_event_handler ev st in
      trace st' =
        (trace st ++
         [xSemaphoreGive (s_ip_semaphore st);
          ESP_LOG LOGI "Connect to the AP fail" []])%list /\
      raises st' = S (raises st) /\
      connects st' = connects st /\
      s_retry_num st' = MAX_RETRY /\
      sem_given st' = true /\
      phase_of st' = Failed) /\
  (forall evs ev,
      Forall is_disconnected evs ->
      List.length evs = 10%nat ->
      is_disconnected ev ->
      let st10 := deliver evs initial_state in
      let st11 := deliver (evs ++ [ev]) initial_state in
      raises st10 = 0%nat /\
      sem_given st10 = false /\
      s_retry_num st10 = 10 /\
      raises st11 = 1%nat /\
      sem_given st11 = true /\
      s_retry_num st11 = 10 /\
      phase_of st11 = Failed).
Proof using case_labels_distinct.
  split; [reflexivity |]. split.
  - intros ev st Hst Hev.
    destruct (fail_step ev st Hev) as (Ht & Hg & Hc & Hn & Hs & Hp); [lia |].
    cbv zeta. rewrite Hn. auto 10.
  - intros evs ev Hall Hlen Hev st10 st11.
    destruct (deliver_disconnects evs initial_state Hall) as (Hn & Hg & Hs & _).
    + cbn. lia.
    + rewrite Hlen. cbn. unfold MAX_RETRY. lia.
    + fold st10 in Hn, Hg, Hs. rewrite Hlen in Hn. cbn in Hn, Hg, Hs.
      assert (E : st11 = wifi_api_event_handler ev st10).
      { unfold st11, st10. now rewrite deliver_app. }
      destruct (fail_step ev st10 Hev) as (_ & Hg' & _ & Hn' & Hs' & Hp').
      { rewrite Hn. unfold MAX_RETRY. lia. }
      rewrite E, Hg', Hn', Hs', Hp', Hg, Hn. auto 10.
Qed.

(** C5.  An address-acquired notification sets [s_retry_num] to 0 and
    raises the Completion Signal exactly once, whatever the counter and
    the state before, and leaves the supervisor in [Connected].  In
    particular, from the initial state, three disconnect notifications
    raise nothing and the address-acquired notification that follows
    leaves [Connected], [s_retry_num = 0] and exactly one raise. *)
Theorem got_ip_resets_and_signals :
  (forall ev st,
      is_got_ip ev ->
      let st' := wifi_api_event_handler ev st in
      trace st' =
        (trace st ++
         [ESP_LOG LOGI ("Got ip:" ++ IPSTR) (IP2STR (event_ip ev));
          xSemaphoreGive (s_ip_semaphore st)])%list /\
      raises st' = S (raises st) /\
      connects st' = connects st /\
      s_retry_num st' = 0 /\
      sem_given st' = true /\
      phase_of st' = Connected) /\
  (forall evs ev,
      Forall is_disconnected evs ->
      List.length evs = 3%nat ->
      is_got_ip ev ->
      let st3 := deliver evs initial_state in
      let st4 := deliver (evs ++ [ev]) initial_state in
      raises st3 = 0%nat /\
      sem_given st3 = false /\
      s_retry_num st3 = 3 /\
      raises st4 = 1%nat /\
      sem_given st4 = true /\
      s_retry_num st4 = 0 /\
      phase_of st4 = Connected).
Proof using case_labels_distinct.
  split.
  - intros ev st Hev. now apply got_ip_step.
  - intros evs ev Hall Hlen Hev st3 st4.
    destruct (deliver_disconnects evs initial_state Hall) as (Hn & Hg & Hs & _).
    + cbn. lia.
    + rewrite Hlen. cbn. unfold MAX_RETRY. lia.
    + fold st3 in Hn, Hg, Hs. rewrite Hlen in Hn. cbn in Hn, Hg, Hs.
      assert (E : st4 = wifi_api_event_handler ev st3).
      { unfold st4, st3. now rewrite deliver_app. }
      destruct (got_ip_step ev st3 Hev) as (_ & Hg' & _ & Hn' & Hs' & Hp').
      rewrite E, Hg', Hn', Hs', Hp', Hg, Hn. auto 10.
Qed.

(** *** What the API functions leave alone *)

Section Frame.
Context {X : Type} (f : state -> X).
Hypothesis f_record : forall c st, f (record c st) = f st.

Lemma keeps_ret {A} (v : A) : keeps f (ret v).
Proof using. now intros st. Qed.

Lemma keeps_abort {A} rc : keeps f (@abort A rc).
Proof using. now intros st. Qed.

Lemma keeps_get {A} (g : state -> A) : keeps f (get g).
Proof using. now intros st. Qed.

Lemma keeps_modify (g : state -> state) :
  (forall st, f (g st) = f st) -> keeps f (modify g).
Proof using. intros Hg st. apply Hg. Qed.

Lemma keeps_bind {A B} (m : M A) (k : A -> M B) :
  keeps f m -> (forall v, keeps f (k v)) -> keeps f (bind m k).
Proof using.
  intros Hm Hk st. specialize (Hm st). unfold bind.
  destruct (m st) as [v st1 | rc st1 | st1]; cbn in Hm |- *;
    [rewrite (Hk v st1) |..]; exact Hm.
Qed.

Lemma keeps_sdk_call c : keeps f (sdk_call c).
Proof using f_record. intros st. apply f_record. Qed.

Lemma keeps_sdk_new c : keeps f (sdk_new c).
Proof using f_record. intros st. apply f_record. Qed.

Lemma keeps_sdk_out c : keeps f (sdk_out c).
Proof using f_record. intros st. apply f_record. Qed.

Lemma keeps_log level fmt args :
  keeps f (modify (record (ESP_LOG level fmt args))).
Proof using f_record. intros st. apply f_record. Qed.

Lemma keeps_register sub store :
  (forall v st, f (store v st) = f st) -> keeps f (register sub store).
Proof using f_record.
  intros Hs st. cbn. now rewrite f_record, Hs.
Qed.

Lemma keeps_get_config : keeps f esp_wifi_get_config_into_wc.
Proof using f_record. intros st. apply f_record. Qed.

Lemma keeps_get_ap_records number ap_info :
  keeps f (esp_wifi_scan_get_ap_records_into number ap_info).
Proof using f_record. intros st. apply f_record. Qed.

Lemma keeps_log_ap_records aps : keeps f (log_ap_records aps).
Proof using f_record.
  induction aps as [|ap aps IH]; cbn [log_ap_records].
  - apply keeps_ret.
  - apply keeps_bind; [| intros _; exact IH].
    unfold log_ap_record, ESP_LOGI.
    repeat (apply keeps_bind; [| intros _]); apply keeps_log.
Qed.
End Frame.

Ltac keeps_step :=
  first
    [ apply keeps_bind; [| intros ?]
    | apply keeps_ret
    | apply keeps_abort
    | apply keeps_get
    | apply keeps_sdk_call; intros; reflexivity
    | apply keeps_sdk_new; intros; reflexivity
    | apply keeps_sdk_out; intros; reflexivity
    | apply keeps_log; intros; reflexivity
    | apply keeps_register; intros; reflexivity
    | apply keeps_get_config; intros; reflexivity
    | apply keeps_get_ap_records; intros; reflexivity
    | apply keeps_log_ap_records; intros; reflexivity
    | apply keeps_modify; intros; reflexivity
    | match goal with
      | |- keeps _ (if ?b then _ else _) => destruct b
      | |- keeps _ (match ?o with Some _ => _ | None => _ end) => destruct o
      | |- keeps _ (let '(_, _) := ?r in _) => destruct r
      end ].

Ltac keeps_all :=
  unfold initialize_nvs, ESP_ERROR_CHECK, ESP_LOGI, ESP_LOGE;
  repeat keeps_step.

Lemma configure_until_take_keeps_retry ssid password :
  keeps s_retry_num (configure_until_take ssid password).
Proof using.
  unfold configure_until_take. keeps_all.
Qed.

Lemma disconnect_keeps_retry : keeps s_retry_num wifi_api_disconnect.
Proof using.
  unfold wifi_api_disconnect. keeps_all.
Qed.

Lemma disconnect_keeps_semaphore : keeps s_ip_semaphore wifi_api_disconnect.
Proof using.
  unfold wifi_api_disconnect. keeps_all.
Qed.

Lemma disconnect_keeps_any_id : keeps instance_any_id wifi_api_disconnect.
Proof using.
  unfold wifi_api_disconnect. keeps_all.
Qed.

Lemma disconnect_keeps_got_ip : keeps instance_got_ip wifi_api_disconnect.
Proof using.
  unfold wifi_api_disconnect. keeps_all.
Qed.

Lemma scan_keeps_retry : keeps s_retry_num wifi_api_scan.
Proof using.
  unfold wifi_api_scan. cbv zeta. keeps_all.
Qed.

(** The sleeping caller sees the counter only as the handler leaves it. *)
Lemma sleep_retry_bounds evs : forall st,
  0 <= s_retry_num st <= MAX_RETRY ->
  0 <= s_retry_num (final (sleep_until_given evs st)) <= MAX_RETRY.
Proof using.
  induction evs as [|ev evs IH]; intros st Hb; cbn [sleep_until_given];
    destruct (sem_given st); try exact Hb.
  apply IH, handler_retry_bounds, Hb.
Qed.

(** Within the bounds the test of line 256 is false: the woken caller
    registers the shutdown handler and returns [ESP_OK], or dies in
    [ESP_ERROR_CHECK]. *)
Lemma configure_after_take_in_bounds st :
  s_retry_num st <= MAX_RETRY ->
  configure_after_take st =
  (ESP_ERROR_CHECK (sdk_call esp_register_shutdown_handler) ;; ret ESP_OK) st.
Proof using.
  intros Hb. unfold configure_after_take, bind at 1, get.
  destruct (Z.gtb_spec (s_retry_num st) MAX_RETRY); [lia | reflexivity].
Qed.

Lemma configure_after_take_never_fails st v st' :
  s_retry_num st <= MAX_RETRY ->
  configure_after_take st = Returned v st' ->
  v = ESP_OK.
Proof using.
  intros Hb. rewrite (configure_after_take_in_bounds st Hb).
  unfold ESP_ERROR_CHECK, bind, sdk_call, ret, abort.
  destruct (_ =? ESP_OK); [| discriminate].
  now intros [= <- _].
Qed.

Lemma alter_keeps_retry new_ssid new_password :
  keeps s_retry_num (wifi_api_alter_sta new_ssid new_password).
Proof using.
  unfold wifi_api_alter_sta. cbv zeta. keeps_all.
Qed.

Lemma configure_after_take_keeps_retry :
  keeps s_retry_num configure_after_take.
Proof using.
  unfold configure_after_take. keeps_all.
Qed.

Lemma configure_retry_bounds ssid password evs st :
  0 <= s_retry_num st <= MAX_RETRY ->
  0 <= s_retry_num (final (wifi_api_configure ssid password evs st))
    <= MAX_RETRY.
Proof using.
  clear case_labels_distinct.
  intros Hb. unfold wifi_api_configure, bind.
  pose proof (configure_until_take_keeps_retry ssid password st) as Hk.
  destruct (configure_until_take ssid password st)
    as [[rc|] st1 | rc st1 | st1]; cbn [final ret] in Hk |- *;
    try (rewrite Hk; exact Hb).
  unfold take_portMAX_DELAY.
  pose proof (sleep_retry_bounds evs
                (record (xSemaphoreTake (s_ip_semaphore st1)) st1)) as Hs.
  cbn [s_retry_num record] in Hs. rewrite Hk in Hs. specialize (Hs Hb).
  destruct (sleep_until_given evs _) as [[] st2 | |];
    cbn [final] in Hs |- *; try exact Hs.
  now rewrite configure_after_take_keeps_retry.
Qed.

Lemma reachable_retry_bounds st :
  reachable st -> 0 <= s_retry_num st <= MAX_RETRY.
Proof using.
  clear case_labels_distinct.
  induction 1 as [| ev st _ IH | ssid password evs st _ IH | st _ IH
                  | a b st _ IH | st _ IH].
  - cbn. unfold MAX_RETRY. lia.
  - now apply handler_retry_bounds.
  - now apply configure_retry_bounds.
  - now rewrite disconnect_keeps_retry.
  - now rewrite alter_keeps_retry.
  - now rewrite scan_keeps_retry.
Qed.

(** What a [wifi_api_disconnect] that returns has done: both unregister
    calls with the stored instances, the delete when the handle is not
    NULL, the disconnect command, whose result it returns.  The three
    handles are as before. *)
Lemma disconnect_returns st v st' :
  wifi_api_disconnect st = Returned v st' ->
  let log := ESP_LOG LOGI "Disconnecting Wi-Fi..." [] in
  let released :=
    (trace st ++
     [log;
      esp_event_handler_instance_unregister WIFI_EVENT_ANY_ID (instance_any_id st);
      esp_event_handler_instance_unregister IP_EVENT_GOT_IP (instance_got_ip st)] ++
     (if s_ip_semaphore st =? 0 then []
      else [vSemaphoreDelete (s_ip_semaphore st)]))%list in
  trace st' = (released ++ [esp_wifi_disconnect])%list /\
  v = sdk_ret sdk released esp_wifi_disconnect /\
  s_ip_semaphore st' = s_ip_semaphore st /\
  instance_any_id st' = instance_any_id st /\
  instance_got_ip st' = instance_got_ip st.
Proof using.
  clear case_labels_distinct.
  unfold wifi_api_disconnect, ESP_ERROR_CHECK, ESP_LOGI, sdk_call, bind,
    modify, get, ret, abort.
  destruct (_ =? ESP_OK); [| discriminate].
  destruct (_ =? ESP_OK); [| discriminate].
  assert (Hsem : forall c s, s_ip_semaphore (record c s) = s_ip_semaphore s)
    by reflexivity.
  assert (Hany : forall c s, instance_any_id (record c s) = instance_any_id s)
    by reflexivity.
  assert (Hgot : forall c s, instance_got_ip (record c s) = instance_got_ip s)
    by reflexivity.
  assert (Htr : forall c s, trace (record c s) = (trace s ++ [c])%list)
    by reflexivity.
  rewrite !Hsem, !Hany, !Hgot.
  destruct (s_ip_semaphore st =? 0);
    intros [= <- <-]; rewrite ?Hsem, ?Hany, ?Hgot, ?Htr;
    rewrite <- ?app_assoc; cbn [app]; auto.
Qed.

(** Two calls in a row that both return delete the same semaphore
    twice. *)
Lemma disconnect_twice_deletes_twice st v1 st1 v2 st2 :
  s_ip_semaphore st <> 0 ->
  wifi_api_disconnect st = Returned v1 st1 ->
  wifi_api_disconnect st1 = Returned v2 st2 ->
  count (is_delete_of (s_ip_semaphore st)) (trace st2) =
  (count (is_delete_of (s_ip_semaphore st)) (trace st) + 2)%nat.
Proof using.
  clear case_labels_distinct.
  intros Hh H1 H2.
  destruct (disconnect_returns st v1 st1 H1) as (T1 & _ & S1 & _ & _).
  destruct (disconnect_returns st1 v2 st2 H2) as (T2 & _ & _ & _ & _).
  rewrite T2, T1, S1.
  destruct (Z.eqb_spec (s_ip_semaphore st) 0) as [E|_]; [contradiction |].
  rewrite !count_app. unfold count. cbn [filter is_delete_of List.length app].
  rewrite Z.eqb_refl. cbn [List.length]. lia.
Qed.

(** C10.  The retry counter stays between 0 and [MAX_RETRY]: one handler
    run either leaves it, resets it to 0, or adds one under the guard
    [s_retry_num < MAX_RETRY]; so after any sequence of notifications
    from the initial state, and in every state the supervisor can reach,
    [0 <= s_retry_num <= MAX_RETRY].  Hence the failure branch of line
    256 is never taken: when [wifi_api_configure] returns [ESP_FAIL], it
    is the early return after a failed semaphore creation. *)
Theorem retry_counter_never_exceeds_MAX_RETRY :
  (forall ev st,
      0 <= s_retry_num st <= MAX_RETRY ->
      let r := s_retry_num st in
      let r' := s_retry_num (wifi_api_event_handler ev st) in
      0 <= r' <= MAX_RETRY /\
      (r' = r \/ r' = 0 \/ (r < MAX_RETRY /\ r' = r + 1))) /\
  (forall evs,
      0 <= s_retry_num (deliver evs initial_state) <= MAX_RETRY) /\
  (forall st, reachable st -> 0 <= s_retry_num st <= MAX_RETRY) /\
  (forall ssid password evs st v st',
      0 <= s_retry_num st <= MAX_RETRY ->
      wifi_api_configure ssid password evs st = Returned v st' ->
      v = ESP_FAIL ->
      configure_until_take ssid password st = Returned (Some ESP_FAIL) st').
Proof using.
  clear case_labels_distinct.
  split; [| split; [| split]].
  - intros ev st Hb r r'. split.
    + now apply handler_retry_bounds.
    + now apply handler_retry_cases.
  - intros evs. apply deliver_retry_bounds. cbn. unfold MAX_RETRY. lia.
  - exact reachable_retry_bounds.
  - intros ssid password evs st v st' Hb Hrun Hv.
    unfold wifi_api_configure, bind in Hrun.
    pose proof (configure_until_take_keeps_retry ssid password st) as Hk.
    destruct (configure_until_take ssid password st)
      as [[rc|] st1 | rc st1 | st1]; cbn in Hk; try discriminate.
    + injection Hrun as -> ->. now subst v.
    + exfalso. unfold take_portMAX_DELAY in Hrun.
      pose proof (sleep_retry_bounds evs
                    (record (xSemaphoreTake (s_ip_semaphore st1)) st1)) as Hs.
      destruct (sleep_until_given evs _) as [[] st2 | |];
        cbn in Hs; try discriminate.
      apply configure_after_take_never_fails in Hrun.
      * subst v. discriminate.
      * apply Hs. cbn [s_retry_num record]. now rewrite Hk.
Qed.

(** C2, as the code has it.  [wifi_api_configure] never writes
    [s_retry_num]: when the caller reaches [xSemaphoreTake] the counter
    has the value it had when [wifi_api_configure] was called, whatever
    that value is.  It is 0 there on a first call because the variable
    is initialised to 0. *)
Theorem configure_does_not_touch_retry_counter :
  (forall ssid password st,
      s_retry_num (final (configure_until_take ssid password st)) =
      s_retry_num st) /\
  (forall ssid password,
      s_retry_num (final (configure_until_take ssid password initial_state)) = 0).
Proof using.
  split.
  - intros ssid password st. apply configure_until_take_keeps_retry.
  - intros ssid password.
    now rewrite configure_until_take_keeps_retry.
Qed.

(** C8.  For every input and every SDK, [wifi_api_alter_sta] returns
    without taking the Completion Signal and leaves [s_retry_num] and
    every other variable of the supervisor as they were.  What it does
    is: read the current configuration, overwrite its SSID and password
    members by [strncpy] (the other members keep their value), set the
    configuration, and issue disconnect and then connect. *)
Theorem alter_is_fire_and_forget (new_ssid new_password : list byte)
        (st : state) :
  let log := ESP_LOG LOGI "Updating STA configuration..." [] in
  let wc := sdk_config sdk (trace st ++ [log]) in
  let wc' := alter_wc new_ssid new_password wc in
  exists st',
    wifi_api_alter_sta new_ssid new_password st = Returned ESP_OK st' /\
    trace st' =
      (trace st ++
       [log; esp_wifi_get_config; esp_wifi_set_config wc';
        esp_wifi_disconnect; esp_wifi_connect])%list /\
    count is_take (trace st') = count is_take (trace st) /\
    raises st' = raises st /\
    s_retry_num st' = s_retry_num st /\
    sem_given st' = sem_given st /\
    s_ip_semaphore st' = s_ip_semaphore st /\
    instance_any_id st' = instance_any_id st /\
    instance_got_ip st' = instance_got_ip st /\
    s_sta_netif st' = s_sta_netif st /\
    sta_ssid wc' = strncpy (sta_ssid wc) new_ssid 31 /\
    sta_password wc' = strncpy (sta_password wc) new_password 63 /\
    sta_threshold_authmode wc' = sta_threshold_authmode wc /\
    sta_other wc' = sta_other wc.
Proof using.
  intros log wc wc'.
  exists (record esp_wifi_connect
            (record esp_wifi_disconnect
               (record (esp_wifi_set_config wc')
                  (record esp_wifi_get_config (record log st))))).
  split; [reflexivity |].
  assert (Htr : forall a b c d e : call,
             (((((trace st ++ [a]) ++ [b]) ++ [c]) ++ [d]) ++ [e] =
              trace st ++ [a; b; c; d; e])%list).
  { intros. now rewrite <- !app_assoc. }
  unfold raises. cbn [trace record]. rewrite Htr, !count_app.
  repeat split; try reflexivity.
  - change (count is_take [log; esp_wifi_get_config; esp_wifi_set_config wc';
                           esp_wifi_disconnect; esp_wifi_connect]) with 0%nat.
    lia.
  - change (count is_give [log; esp_wifi_get_config; esp_wifi_set_config wc';
                           esp_wifi_disconnect; esp_wifi_connect]) with 0%nat.
    lia.
Qed.

(** *** The scan *)

Lemma authmode_str_classifies code :
  authmode_str code = auth_class_name (spec_classify code).
Proof using.
  clear case_labels_distinct.
  unfold authmode_str, WIFI_AUTH_OPEN, WIFI_AUTH_WEP, WIFI_AUTH_WPA_PSK,
    WIFI_AUTH_WPA2_PSK, WIFI_AUTH_WPA_WPA2_PSK.
  destruct (Z.eqb_spec code 0) as [->|H0]; [reflexivity |].
  destruct (Z.eqb_spec code 1) as [->|H1]; [reflexivity |].
  destruct (Z.eqb_spec code 2) as [->|H2]; [reflexivity |].
  destruct (Z.eqb_spec code 3) as [->|H3]; [reflexivity |].
  destruct (Z.eqb_spec code 4) as [->|H4]; [reflexivity |].
  destruct code as [|p|p]; try reflexivity; try lia.
  destruct p as [[q|q|]|[q|[r|r|]|]|]; try reflexivity; lia.
Qed.

Lemma authmode_lines_app a b :
  authmode_lines (a ++ b) = (authmode_lines a ++ authmode_lines b)%list.
Proof using.
  apply flat_map_app.
Qed.

Lemma log_ap_records_lines aps : forall st,
  exists st',
    log_ap_records aps st = Returned tt st' /\
    authmode_lines (trace st') =
    (authmode_lines (trace st) ++
     map (fun ap => authmode_str (ap_authmode ap)) aps)%list.
Proof using.
  induction aps as [|ap aps IH]; intros st.
  - exists st. split; [reflexivity |]. cbn [map]. now rewrite app_nil_r.
  - cbn [log_ap_records].
    set (st1 := record (ESP_LOG LOGI ("Channel " ++ TAB ++ TAB ++ "%d")
                          [ArgInt (ap_primary ap)])
                 (record (ESP_LOG LOGI ("Authmode " ++ TAB ++ "%s")
                            [ArgStr (authmode_str (ap_authmode ap))])
                    (record (ESP_LOG LOGI ("RSSI " ++ TAB ++ TAB ++ "%d")
                               [ArgInt (ap_rssi ap)])
                       (record (ESP_LOG LOGI ("SSID " ++ TAB ++ TAB ++ "%s")
                                  [ArgBytes (ap_ssid ap)]) st)))).
    destruct (IH st1) as (st' & Hrun & Hlines).
    exists st'. split.
    + change (log_ap_records aps st1 = Returned tt st'). exact Hrun.
    + rewrite Hlines. unfold st1. cbn [trace record].
      rewrite !authmode_lines_app. cbn [map].
      change (authmode_lines [ESP_LOG LOGI ("SSID " ++ TAB ++ TAB ++ "%s")
                                [ArgBytes (ap_ssid ap)]]) with (@nil string).
      change (authmode_lines [ESP_LOG LOGI ("RSSI " ++ TAB ++ TAB ++ "%d")
                                [ArgInt (ap_rssi ap)]]) with (@nil string).
      change (authmode_lines [ESP_LOG LOGI ("Channel " ++ TAB ++ TAB ++ "%d")
                                [ArgInt (ap_primary ap)]]) with (@nil string).
      change (authmode_lines [ESP_LOG LOGI ("Authmode " ++ TAB ++ "%s")
                                [ArgStr (authmode_str (ap_authmode ap))]])
        with [authmode_str (ap_authmode ap)].
      rewrite !app_nil_r, <- app_assoc. reflexivity.
Qed.

Lemma firstn_batch {A} (batch rest : list A) :
  firstn (Z.to_nat (Z.of_nat (List.length batch))) (batch ++ rest) = batch.
Proof using.
  rewrite Nat2Z.id.
  replace (List.length batch) with (List.length batch + 0)%nat by lia.
  rewrite firstn_app_2. cbn. apply app_nil_r.
Qed.

(** A scan dies in one of its three [ESP_ERROR_CHECK] before it prints
    any record, or prints the batch the SDK hands over. *)
Lemma scan_cases st :
  (exists rc st',
      wifi_api_scan st = Aborted rc st' /\
      authmode_lines (trace st') = authmode_lines (trace st)) \/
  (exists st',
      wifi_api_scan st = Returned tt st' /\
      authmode_lines (trace st') =
      (authmode_lines (trace st) ++
       map (fun ap => authmode_str (ap_authmode ap))
           (firstn AP_INFO_LEN (sdk_scan sdk (trace st ++ scan_prefix))))%list).
Proof using.
  clear case_labels_distinct.
  unfold wifi_api_scan. cbv zeta.
  unfold ESP_ERROR_CHECK, ESP_LOGI, sdk_call, sdk_out,
    esp_wifi_scan_get_ap_records_into, bind, modify, ret, abort.
  cbn [trace record].
  destruct (_ =? ESP_OK).
  2:{ left. do 2 eexists. split; [reflexivity |]. cbn [trace record].
      now rewrite !authmode_lines_app, !app_nil_r. }
  destruct (_ =? ESP_OK).
  2:{ left. do 2 eexists. split; [reflexivity |]. cbn [trace record].
      now rewrite !authmode_lines_app, !app_nil_r. }
  destruct (_ =? ESP_OK).
  2:{ left. do 2 eexists. split; [reflexivity |]. cbn [trace record].
      now rewrite !authmode_lines_app, !app_nil_r. }
  right. rewrite firstn_batch.
  match goal with
  | |- exists st', log_ap_records ?aps ?s = _ /\ _ =>
      destruct (log_ap_records_lines aps s) as (st' & Hrun & Hlines)
  end.
  exists st'. split; [exact Hrun |].
  rewrite Hlines. cbn [trace record].
  rewrite Nat2Z.id, <- !app_assoc, !authmode_lines_app.
  cbn [authmode_lines flat_map authmode_line app].
  rewrite app_nil_r. reflexivity.
Qed.

(** C9.  [wifi_api_scan] prints for every retrieved record the name of
    its auth mode, and that name is the spec's classification: codes 0,
    1, 2, 3, 4 are Open, WEP, WPA-PSK, WPA2-PSK, WPA/WPA2-PSK and every
    other code is Unknown.  One scan prints at most 10 records: the
    first 10 the SDK found, in order, when it returns. *)
Theorem scan_classifies_authmode :
  (forall code, authmode_str code = auth_class_name (spec_classify code)) /\
  map spec_classify [0; 1; 2; 3; 4; 99] =
    [Open; WEP; WPA_PSK; WPA2_PSK; WPA_WPA2_PSK; Unknown] /\
  (forall st,
      (List.length (authmode_lines (trace (final (wifi_api_scan st)))) <=
       List.length (authmode_lines (trace st)) + 10)%nat) /\
  (forall st st',
      wifi_api_scan st = Returned tt st' ->
      authmode_lines (trace st') =
      (authmode_lines (trace st) ++
       map (fun ap => auth_class_name (spec_classify (ap_authmode ap)))
           (firstn 10 (sdk_scan sdk (trace st ++ scan_prefix))))%list).
Proof using.
  clear case_labels_distinct.
  split; [exact authmode_str_classifies |].
  split; [reflexivity |].
  split.
  - intros st.
    destruct (scan_cases st) as [(rc & st' & -> & E) | (st' & -> & E)];
      cbn [final]; rewrite E; [lia |].
    rewrite length_app, length_map, length_firstn.
    unfold AP_INFO_LEN. lia.
  - intros st st' Hrun.
    destruct (scan_cases st) as [(rc & st1 & H1 & _) | (st1 & H1 & H2)];
      rewrite H1 in Hrun; [discriminate |].
    injection Hrun as <-. rewrite H2. f_equal.
    apply map_ext. intros ap. apply authmode_str_classifies.
Qed.

(** ** Beyond the claims *)

(** *** Stored credentials *)

Lemma c_str_no_nul s : Forall (fun b => is_nul b = false) (c_str s).
Proof using.
  induction s as [|b s IH]; cbn [c_str]; [constructor |].
  destruct (is_nul b) eqn:E; constructor; assumption.
Qed.

Lemma c_str_app s t :
  Forall (fun b => is_nul b = false) s ->
  c_str (s ++ t) = (s ++ c_str t)%list.
Proof using.
  induction 1 as [|b s Hb _ IH]; [reflexivity |].
  cbn [app c_str]. now rewrite Hb, IH.
Qed.


Lemma firstn_zeros k : forall n,
  (k <= n)%nat -> firstn k (repeat x00 n) = repeat x00 k.
Proof using.
  clear case_labels_distinct.
  induction k as [|k IH]; intros [|n] H; try reflexivity; [lia |].
  cbn [repeat firstn]. f_equal. apply IH. lia.
Qed.

Lemma firstn_no_nul n (s : list byte) :
  Forall (fun b => is_nul b = false) s ->
  Forall (fun b => is_nul b = false) (firstn n s).
Proof using.
  intros H. revert n. induction H as [|b s Hb _ IH]; intros [|n];
    cbn [firstn]; constructor; auto.
Qed.

Lemma firstn_padded (s : list byte) n :
  firstn n (s ++ repeat x00 n) =
  (firstn n s ++ repeat x00 (n - List.length s))%list.
Proof using.
  clear case_labels_distinct.
  rewrite firstn_app. f_equal.
  apply firstn_zeros. lia.
Qed.


Lemma strncpy_length dest src n :
  (n <= List.length dest)%nat ->
  List.length (strncpy dest src n) = List.length dest.
Proof using.
  clear case_labels_distinct.
  intros Hn. unfold strncpy.
  rewrite length_app, length_firstn, length_skipn, length_app, repeat_length.
  lia.
Qed.


Lemma skipn_last_byte (l : list byte) n :
  List.length l = S n -> skipn n l = [nth n l x00].
Proof using.
  clear case_labels_distinct.
  revert l. induction n as [|n IH]; intros [|b l] H; try discriminate.
  - destruct l; [reflexivity | discriminate].
  - cbn [skipn nth]. apply IH. cbn in H. lia.
Qed.

(** What [strncpy(field, src, sizeof(field) - 1)] leaves in a field of
    [S n] bytes. *)
Lemma strncpy_all_but_last field src n :
  List.length field = S n ->
  let stored := strncpy field src n in
  List.length stored = S n /\
  nth n stored x00 = nth n field x00 /\
  ((List.length (c_str src) < n)%nat -> c_str stored = c_str src) /\
  ((n <= List.length (c_str src))%nat ->
   c_str stored = (firstn n (c_str src) ++ c_str [nth n field x00])%list).
Proof using.
  clear case_labels_distinct.
  intros Hlen stored.
  assert (Hst : stored =
                (firstn n (c_str src) ++
                 repeat x00 (n - List.length (c_str src)) ++
                 [nth n field x00])%list).
  { unfold stored, strncpy.
    now rewrite firstn_padded, (skipn_last_byte field n Hlen), <- app_assoc. }
  assert (Hnul : Forall (fun b => is_nul b = false) (firstn n (c_str src)))
    by apply firstn_no_nul, c_str_no_nul.
  repeat split.
  - unfold stored. rewrite strncpy_length; lia.
  - rewrite Hst, app_assoc, app_nth2;
      rewrite length_app, length_firstn, repeat_length.
    + replace (n - _)%nat with 0%nat by lia. reflexivity.
    + lia.
  - intros Hlt. rewrite Hst, (c_str_app _ _ Hnul).
    destruct (n - List.length (c_str src))%nat as [|k] eqn:E; [lia |].
    cbn [repeat app c_str is_nul]. rewrite app_nil_r.
    apply firstn_all2. lia.
  - intros Hge. rewrite Hst, (c_str_app _ _ Hnul).
    replace (n - List.length (c_str src))%nat with 0%nat by lia.
    reflexivity.
Qed.

(** X2.  The configuration [wifi_api_alter_sta] installs, for a current
    configuration whose SSID member has its 32 bytes and whose password
    member its 64.  Only the first 31 (63) bytes are written: the last
    byte of each member is the one the SDK reported.  A new SSID shorter
    than 31 characters reads back unchanged; one of 31 characters or more
    reads back as its first 31 characters followed by that old last byte
    when it is not NUL.  The same holds for the password with 63. *)
Theorem alter_keeps_last_byte (new_ssid new_password : list byte)
        (wc : wifi_config_t) :
  List.length (sta_ssid wc) = 32%nat ->
  List.length (sta_password wc) = 64%nat ->
  let wc' := alter_wc new_ssid new_password wc in
  (List.length (sta_ssid wc') = 32%nat /\
   nth 31 (sta_ssid wc') x00 = nth 31 (sta_ssid wc) x00 /\
   ((List.length (c_str new_ssid) < 31)%nat ->
    c_str (sta_ssid wc') = c_str new_ssid) /\
   ((31 <= List.length (c_str new_ssid))%nat ->
    c_str (sta_ssid wc') =
    (firstn 31 (c_str new_ssid) ++ c_str [nth 31 (sta_ssid wc) x00])%list)) /\
  (List.length (sta_password wc') = 64%nat /\
   nth 63 (sta_password wc') x00 = nth 63 (sta_password wc) x00 /\
   ((List.length (c_str new_password) < 63)%nat ->
    c_str (sta_password wc') = c_str new_password) /\
   ((63 <= List.length (c_str new_password))%nat ->
    c_str (sta_password wc') =
    (firstn 63 (c_str new_password) ++
     c_str [nth 63 (sta_password wc) x00])%list)).
Proof using.
  intros Hs Hp wc'. split.
  - exact (strncpy_all_but_last (sta_ssid wc) new_ssid 31 Hs).
  - exact (strncpy_all_but_last (sta_password wc) new_password 63 Hp).
Qed.

(** *** Runs of the handler *)

Lemma handler_start ev st :
  is_sta_start ev ->
  wifi_api_event_handler ev st = record esp_wifi_connect st.
Proof using.
  intros H. unfold wifi_api_event_handler. rewrite H.
  now rewrite Z.eqb_refl.
Qed.

Lemma handler_unhandled ev st :
  is_unhandled ev -> wifi_api_event_handler ev st = st.
Proof using.
  intros (H1 & H2 & H3). unfold wifi_api_event_handler.
  destruct (Z.eqb_spec (event_id ev) WIFI_EVENT_STA_START); [contradiction |].
  destruct (Z.eqb_spec (event_id ev) WIFI_EVENT_STA_DISCONNECTED);
    [contradiction |].
  destruct (Z.eqb_spec (event_id ev) IP_EVENT_STA_GOT_IP); [contradiction |].
  reflexivity.
Qed.

(** One notification without an address, in numbers. *)
Lemma quiet_step ev st :
  no_address ev ->
  0 <= s_retry_num st <= MAX_RETRY ->
  let d := Z.of_nat (disconnected_in [ev]) in
  let s := Z.of_nat (sta_start_in [ev]) in
  let r := s_retry_num st in
  let st' := wifi_api_event_handler ev st in
  s_retry_num st' = Z.min MAX_RETRY (r + d) /\
  Z.of_nat (raises st') = Z.of_nat (raises st) + Z.max 0 (r + d - MAX_RETRY) /\
  Z.of_nat (connects st') =
    Z.of_nat (connects st) + s + Z.min d (MAX_RETRY - r) /\
  sem_given st' = (sem_given st || (MAX_RETRY <? r + d))%bool.
Proof using case_labels_distinct.
  intros Hno Hb. cbv zeta. unfold disconnected_in, sta_start_in.
  cbn [filter].
  destruct case_labels_distinct as (Hsd & _ & _).
  destruct (Z.eqb_spec (event_id ev) WIFI_EVENT_STA_START) as [Es|Ns].
  - destruct (Z.eqb_spec (event_id ev) WIFI_EVENT_STA_DISCONNECTED) as [Ed|_];
      [congruence |].
    rewrite (handler_start ev st Es). cbn [List.length].
    unfold connects, raises. cbn [trace record s_retry_num sem_given].
    rewrite !count_app.
    change (count is_connect [esp_wifi_connect]) with 1%nat.
    change (count is_give [esp_wifi_connect]) with 0%nat.
    destruct (Z.ltb_spec MAX_RETRY (s_retry_num st + Z.of_nat 0)); [lia |].
    rewrite orb_false_r. repeat split; lia.
  - destruct (Z.eqb_spec (event_id ev) WIFI_EVENT_STA_DISCONNECTED) as [Ed|Nd].
    + cbn [List.length].
      destruct (Z_lt_ge_dec (s_retry_num st) MAX_RETRY) as [Hlt|Hge].
      * destruct (retry_step ev st Ed) as (_ & Hc & Hn & Hg & Hs & _); [lia |].
        rewrite Hc, Hn, Hg, Hs.
        destruct (Z.ltb_spec MAX_RETRY (s_retry_num st + Z.of_nat 1)); [lia |].
        rewrite orb_false_r. repeat split; lia.
      * destruct (fail_step ev st Ed) as (_ & Hg & Hc & Hn & Hs & _); [lia |].
        rewrite Hc, Hn, Hg, Hs.
        destruct (Z.ltb_spec MAX_RETRY (s_retry_num st + Z.of_nat 1)); [| lia].
        rewrite orb_true_r. repeat split; lia.
    + rewrite (handler_unhandled ev st) by (repeat split; assumption).
      cbn [List.length].
      destruct (Z.ltb_spec MAX_RETRY (s_retry_num st + Z.of_nat 0)); [lia |].
      rewrite orb_false_r. repeat split; lia.
Qed.

Lemma disconnected_in_cons ev evs :
  disconnected_in (ev :: evs) =
  (disconnected_in [ev] + disconnected_in evs)%nat.
Proof using.
  unfold disconnected_in. cbn [filter].
  now destruct (event_id ev =? WIFI_EVENT_STA_DISCONNECTED).
Qed.

Lemma sta_start_in_cons ev evs :
  sta_start_in (ev :: evs) = (sta_start_in [ev] + sta_start_in evs)%nat.
Proof using.
  unfold sta_start_in. cbn [filter].
  now destruct (event_id ev =? WIFI_EVENT_STA_START).
Qed.

Lemma quiet_run evs : forall st,
  Forall no_address evs ->
  0 <= s_retry_num st <= MAX_RETRY ->
  let d := Z.of_nat (disconnected_in evs) in
  let s := Z.of_nat (sta_start_in evs) in
  let r := s_retry_num st in
  let st' := deliver evs st in
  s_retry_num st' = Z.min MAX_RETRY (r + d) /\
  Z.of_nat (raises st') = Z.of_nat (raises st) + Z.max 0 (r + d - MAX_RETRY) /\
  Z.of_nat (connects st') =
    Z.of_nat (connects st) + s + Z.min d (MAX_RETRY - r) /\
  sem_given st' = (sem_given st || (MAX_RETRY <? r + d))%bool.
Proof using case_labels_distinct.
  induction evs as [|ev evs IH]; intros st Hall Hb.
  - cbv zeta. change (deliver [] st) with st.
    change (disconnected_in []) with 0%nat.
    change (sta_start_in []) with 0%nat.
    destruct (Z.ltb_spec MAX_RETRY (s_retry_num st + Z.of_nat 0)); [lia |].
    rewrite orb_false_r. repeat split; lia.
  - inversion Hall as [|? ? Hev Hall']; subst.
    pose proof (quiet_step ev st Hev Hb) as H1. cbv zeta in H1.
    pose proof (handler_retry_bounds ev st Hb) as Hb1.
    pose proof (IH (wifi_api_event_handler ev st) Hall' Hb1) as H2.
    cbv zeta in H2 |- *.
    change (deliver (ev :: evs) st)
      with (deliver evs (wifi_api_event_handler ev st)).
    rewrite disconnected_in_cons, sta_start_in_cons.
    assert (Hd : (disconnected_in [ev] <= 1)%nat).
    { unfold disconnected_in. cbn [filter].
      destruct (_ =? _); cbn; lia. }
    destruct H1 as (A1 & A2 & A3 & A4).
    destruct H2 as (B1 & B2 & B3 & B4).
    rewrite B1, B2, B3, B4, A1, A2, A3, A4.
    repeat split; try lia.
    repeat match goal with
           | |- context [?a <? ?b] => destruct (Z.ltb_spec a b)
           end;
      rewrite ?orb_true_r, ?orb_false_r, ?orb_true_l; try reflexivity; lia.
Qed.


(** *** When the slot fills *)

Lemma phase_of_record_log_fail st :
  phase_of (record (ESP_LOG LOGI "Connect to the AP fail" []) st) = Failed.
Proof using.
  unfold phase_of. cbn [trace record]. now rewrite rev_app_distr.
Qed.

(** The handler fills an empty slot only on its two terminal branches. *)
Lemma handler_fills_slot ev st :
  sem_given st = false ->
  sem_given (wifi_api_event_handler ev st) = true ->
  let st' := wifi_api_event_handler ev st in
  (phase_of st' = Connected /\ s_retry_num st' = 0) \/
  (phase_of st' = Failed /\ MAX_RETRY <= s_retry_num st' /\
   s_retry_num st' = s_retry_num st).
Proof using.
  clear case_labels_distinct.
  intros Hempty. unfold wifi_api_event_handler.
  destruct (event_id ev =? WIFI_EVENT_STA_START).
  { cbn [sem_given record]. congruence. }
  destruct (event_id ev =? WIFI_EVENT_STA_DISCONNECTED).
  - destruct (Z.ltb_spec (s_retry_num st) MAX_RETRY).
    + cbn [sem_given record set_s_retry_num]. congruence.
    + intros _. right. split; [apply phase_of_record_log_fail |].
      cbn [s_retry_num record give set_sem_given]. lia.
  - destruct (event_id ev =? IP_EVENT_STA_GOT_IP); [| congruence].
    intros _. left. split; [| reflexivity].
    unfold phase_of. cbn [trace record give set_sem_given set_s_retry_num].
    now rewrite !rev_app_distr.
Qed.

(** The sleeping caller stays asleep through the whole sequence, or wakes
    at the first notification that fills the slot and empties it. *)
Lemma sleep_cases evs : forall st,
  sem_given st = false ->
  (sleep_until_given evs st = Blocked (deliver evs st) /\
   sem_given (deliver evs st) = false) \/
  (exists pre ev post,
      evs = (pre ++ ev :: post)%list /\
      sem_given (deliver pre st) = false /\
      sem_given (wifi_api_event_handler ev (deliver pre st)) = true /\
      sleep_until_given evs st =
      Returned tt (set_sem_given false
                     (wifi_api_event_handler ev (deliver pre st)))).
Proof using.
  induction evs as [|ev evs IH]; intros st Hempty; cbn [sleep_until_given];
    rewrite Hempty.
  - left. now split.
  - destruct (sem_given (wifi_api_event_handler ev st)) eqn:E.
    + right. exists [], ev, evs. repeat split; try assumption.
      destruct evs; cbn [sleep_until_given]; now rewrite E.
    + destruct (IH _ E) as [(Hb & Hs) | (pre & ev' & post & -> & H1 & H2 & H3)].
      * left. split; assumption.
      * right. exists (ev :: pre), ev', post. repeat split; assumption.
Qed.

(** Through notifications that leave the slot empty the caller sleeps
    on. *)
Lemma sleep_through pre : forall rest st,
  Forall no_address pre ->
  0 <= s_retry_num st ->
  s_retry_num st + Z.of_nat (disconnected_in pre) <= MAX_RETRY ->
  sem_given st = false ->
  sleep_until_given (pre ++ rest) st = sleep_until_given rest (deliver pre st).
Proof using case_labels_distinct.
  induction pre as [|ev pre IH]; intros rest st Hall H0 Hle Hempty;
    [reflexivity |].
  inversion Hall as [|? ? Hev Hall']; subst.
  rewrite disconnected_in_cons in Hle.
  assert (Hb : 0 <= s_retry_num st <= MAX_RETRY) by lia.
  destruct (quiet_step ev st Hev Hb) as (A1 & _ & _ & A4).
  cbn [app sleep_until_given]. rewrite Hempty.
  change (deliver (ev :: pre) st)
    with (deliver pre (wifi_api_event_handler ev st)).
  apply IH; try assumption.
  - rewrite A1. lia.
  - rewrite A1. lia.
  - rewrite A4, Hempty.
    destruct (Z.ltb_spec MAX_RETRY
                (s_retry_num st + Z.of_nat (disconnected_in [ev])));
      [lia | reflexivity].
Qed.

(** *** How [wifi_api_configure] gets to its wait *)

Ltac simpl_state :=
  cbn [trace s_retry_num sem_given s_ip_semaphore instance_any_id
       instance_got_ip s_sta_netif record give set_s_sta_netif
       set_s_ip_semaphore set_s_retry_num set_instance_any_id
       set_instance_got_ip set_sem_given].

Ltac simpl_state_in H :=
  cbn [trace s_retry_num sem_given s_ip_semaphore instance_any_id
       instance_got_ip s_sta_netif record give set_s_sta_netif
       set_s_ip_semaphore set_s_retry_num set_instance_any_id
       set_instance_got_ip set_sem_given] in H.

(** The branch where a check failed: the failing call is the last one of
    the trace and its result is the abort code. *)
Ltac abort_now E :=
  match goal with
  | |- exists rc st1 tr c,
        Aborted (sdk_ret ?o ?t ?c0) ?s = _ /\ _ =>
      exists (sdk_ret o t c0), s, t, c0;
      split; [reflexivity |];
      split; [simpl_state; reflexivity |];
      split; [reflexivity | exact E]
  end.

Lemma configure_until_take_cases ssid password st :
  (exists st1,
      configure_until_take ssid password st = Returned None st1 /\
      trace st1 = (trace st ++ configure_calls ssid password)%list /\
      s_retry_num st1 = s_retry_num st /\
      sem_given st1 = false /\
      s_ip_semaphore st1 <> 0) \/
  (exists st1,
      configure_until_take ssid password st = Returned (Some ESP_FAIL) st1 /\
      trace st1 = (trace st ++ failed_creation_calls)%list /\
      s_retry_num st1 = s_retry_num st /\
      s_ip_semaphore st1 = 0 /\
      sdk_handle sdk
        (trace st ++ [nvs_flash_init; ESP_LOG LOGI "Configuring Wi-Fi..." []])
        xSemaphoreCreateBinary = 0 /\
      s_sta_netif st1 = s_sta_netif st /\
      instance_any_id st1 = instance_any_id st /\
      instance_got_ip st1 = instance_got_ip st) \/
  (exists rc st1 tr c,
      configure_until_take ssid password st = Aborted rc st1 /\
      trace st1 = (tr ++ [c])%list /\
      sdk_ret sdk tr c = rc /\
      rc <> ESP_OK).
Proof using.
  clear case_labels_distinct.
  unfold configure_until_take, initialize_nvs, ESP_ERROR_CHECK, ESP_LOGI,
    ESP_LOGE, sdk_call, sdk_new, register, bind, modify, ret, abort.
  cbn beta iota.
  destruct (Z.eqb_spec (sdk_ret sdk (trace st) nvs_flash_init) ESP_OK) as [E|E];
    [| right; right; abort_now E].
  cbn beta iota.
  match goal with
  | |- context [if ?h =? 0 then _ else _] =>
      destruct (Z.eqb_spec h 0) as [H0|H0]
  end; cbn beta iota.
  - right; left. eexists. split; [reflexivity |].
    simpl_state. simpl_state_in H0.
    split; [rewrite <- !app_assoc; reflexivity |].
    split; [reflexivity |]. split; [exact H0 |].
    split; [rewrite <- app_assoc in H0; exact H0 |].
    split; [reflexivity |]. split; reflexivity.
  - repeat match goal with
           | |- context [if ?b =? ESP_OK then _ else _] =>
               let E := fresh "Eok" in
               destruct (Z.eqb_spec b ESP_OK) as [E|E];
                 cbn beta iota; [| right; right; abort_now E]
           end.
    left. eexists. split; [reflexivity |].
    simpl_state. simpl_state_in H0.
    split; [rewrite <- !app_assoc; reflexivity |].
    split; [reflexivity |]. split; [reflexivity |]. exact H0.
Qed.

Lemma configure_reaches_take ssid password st :
  sdk_all_ok sdk ->
  sdk_has_semaphore sdk ->
  exists st1,
    configure_until_take ssid password st = Returned None st1 /\
    trace st1 = (trace st ++ configure_calls ssid password)%list /\
    s_retry_num st1 = s_retry_num st /\
    sem_given st1 = false /\
    s_ip_semaphore st1 <> 0.
Proof using.
  intros Hok Hsem.
  destruct (configure_until_take_cases ssid password st)
    as [H | [(st1 & _ & _ & _ & _ & H0 & _) | (rc & st1 & tr & c & _ & _ & Hrc & Hne)]].
  - exact H.
  - now apply Hsem in H0.
  - rewrite Hok in Hrc. now subst rc.
Qed.

Lemma sleep_given evs st :
  sem_given st = true ->
  sleep_until_given evs st = Returned tt (set_sem_given false st).
Proof using.
  intros H. destruct evs; cbn [sleep_until_given]; now rewrite H.
Qed.

Lemma phase_of_woken st :
  phase_of (record esp_register_shutdown_handler (set_sem_given false st)) =
  phase_of st.
Proof using.
  unfold phase_of. cbn [trace record set_sem_given].
  now rewrite rev_app_distr.
Qed.

(** With an SDK that reports no error: the state [st2] in which the
    caller goes to sleep, and how the call ends for a sequence of
    notifications that stays silent ([pre]) and for one that goes on with
    a notification that fills the slot. *)
Lemma configure_wakes ssid password pre st :
  sdk_all_ok sdk ->
  sdk_has_semaphore sdk ->
  0 <= s_retry_num st ->
  Forall no_address pre ->
  s_retry_num st + Z.of_nat (disconnected_in pre) <= MAX_RETRY ->
  exists st2,
    s_retry_num st2 = s_retry_num st /\
    sem_given st2 = false /\
    raises st2 = raises st /\
    connects st2 = S (connects st) /\
    wifi_api_configure ssid password pre st = Blocked (deliver pre st2) /\
    forall ev post,
      sem_given (wifi_api_event_handler ev (deliver pre st2)) = true ->
      s_retry_num (wifi_api_event_handler ev (deliver pre st2)) <= MAX_RETRY ->
      wifi_api_configure ssid password (pre ++ ev :: post) st =
      Returned ESP_OK
        (record esp_register_shutdown_handler
           (set_sem_given false
              (wifi_api_event_handler ev (deliver pre st2)))).
Proof using case_labels_distinct.
  intros Hok Hsem H0 Hall Hle.
  destruct (configure_reaches_take ssid password st Hok Hsem)
    as (st1 & Hrun & Htr & Hr & Hs & _).
  set (st2 := record (xSemaphoreTake (s_ip_semaphore st1)) st1).
  assert (Hr2 : s_retry_num st2 = s_retry_num st) by exact Hr.
  assert (Hs2 : sem_given st2 = false) by exact Hs.
  assert (Hb2 : 0 <= s_retry_num st2 <= MAX_RETRY) by (rewrite Hr2; lia).
  destruct (quiet_run pre st2 Hall Hb2) as (_ & _ & _ & Q4).
  assert (Hquiet : sem_given (deliver pre st2) = false).
  { rewrite Q4, Hs2, Hr2.
    destruct (Z.ltb_spec MAX_RETRY
                (s_retry_num st + Z.of_nat (disconnected_in pre)));
      [lia | reflexivity]. }
  exists st2. split; [exact Hr2 |]. split; [exact Hs2 |].
  split; [| split; [| split]].
  - unfold raises, st2. cbn [trace record]. rewrite Htr, !count_app.
    change (count is_give (configure_calls ssid password)) with 0%nat.
    change (count is_give [xSemaphoreTake (s_ip_semaphore st1)]) with 0%nat.
    lia.
  - unfold connects, st2. cbn [trace record]. rewrite Htr, !count_app.
    change (count is_connect (configure_calls ssid password)) with 1%nat.
    change (count is_connect [xSemaphoreTake (s_ip_semaphore st1)]) with 0%nat.
    lia.
  - unfold wifi_api_configure, bind. rewrite Hrun.
    unfold take_portMAX_DELAY. fold st2.
    rewrite <- (app_nil_r pre) at 1.
    rewrite (sleep_through pre [] st2 Hall); try lia; try assumption.
    cbn [sleep_until_given]. now rewrite Hquiet.
  - intros ev post Hfull Hbound.
    unfold wifi_api_configure, bind. rewrite Hrun.
    unfold take_portMAX_DELAY. fold st2.
    rewrite (sleep_through pre (ev :: post) st2 Hall); try lia; try assumption.
    cbn [sleep_until_given]. rewrite Hquiet.
    rewrite (sleep_given post _ Hfull).
    rewrite configure_after_take_in_bounds by exact Hbound.
    unfold ESP_ERROR_CHECK, bind, sdk_call, ret. rewrite Hok.
    reflexivity.
Qed.

(** X4.  With an SDK that reports no error, [wifi_api_configure] never
    returns while no terminal notification arrives: if none of the
    notifications carries an address and the disconnects among them do not
    exceed what is left of the retry budget, the caller is still blocked
    in [xSemaphoreTake] after the last of them, the signal was not raised,
    and the counter stands at the number of disconnects seen. *)
Theorem configure_blocks_without_terminal_notification
        (ssid password : list byte) (evs : list event) (st : state) :
  sdk_all_ok sdk ->
  sdk_has_semaphore sdk ->
  0 <= s_retry_num st ->
  Forall no_address evs ->
  s_retry_num st + Z.of_nat (disconnected_in evs) <= MAX_RETRY ->
  exists st',
    wifi_api_configure ssid password evs st = Blocked st' /\
    sem_given st' = false /\
    raises st' = raises st /\
    s_retry_num st' = s_retry_num st + Z.of_nat (disconnected_in evs) /\
    Z.of_nat (connects st') =
      Z.of_nat (connects st) + 1 + Z.of_nat (sta_start_in evs) +
      Z.of_nat (disconnected_in evs).
Proof using case_labels_distinct.
  intros Hok Hsem H0 Hall Hle.
  destruct (configure_wakes ssid password evs st Hok Hsem H0 Hall Hle)
    as (st2 & Hr & Hs & Hg & Hc & Hblock & _).
  assert (Hb2 : 0 <= s_retry_num st2 <= MAX_RETRY) by (rewrite Hr; lia).
  destruct (quiet_run evs st2 Hall Hb2) as (Q1 & Q2 & Q3 & Q4).
  exists (deliver evs st2). split; [exact Hblock |].
  rewrite Q1, Q4, Hs, Hr.
  destruct (Z.ltb_spec MAX_RETRY
              (s_retry_num st + Z.of_nat (disconnected_in evs))); [lia |].
  repeat split; lia.
Qed.

(** X5.  With an SDK that reports no error, [wifi_api_configure] returns
    [ESP_OK] in [Connected] at the first address-acquired notification
    that arrives within the retry budget: after notifications [pre]
    without an address whose disconnects fit the budget, a notification
    with an address wakes the caller; the call registers the shutdown
    handler and returns with the counter at 0, the slot emptied and the
    signal raised once.  The notifications after it are not looked at. *)
Theorem configure_returns_on_address
        (ssid password : list byte) (pre : list event) (ev : event)
        (st : state) :
  sdk_all_ok sdk ->
  sdk_has_semaphore sdk ->
  0 <= s_retry_num st ->
  Forall no_address pre ->
  s_retry_num st + Z.of_nat (disconnected_in pre) <= MAX_RETRY ->
  is_got_ip ev ->
  exists st',
    (forall post,
        wifi_api_configure ssid password (pre ++ ev :: post) st =
        Returned ESP_OK st') /\
    phase_of st' = Connected /\
    s_retry_num st' = 0 /\
    sem_given st' = false /\
    raises st' = S (raises st) /\
    Z.of_nat (connects st') =
      Z.of_nat (connects st) + 1 + Z.of_nat (sta_start_in pre) +
      Z.of_nat (disconnected_in pre).
Proof using case_labels_distinct.
  intros Hok Hsem H0 Hall Hle Hev.
  destruct (configure_wakes ssid password pre st Hok Hsem H0 Hall Hle)
    as (st2 & Hr & Hs & Hg & Hc & _ & Hwake).
  assert (Hb2 : 0 <= s_retry_num st2 <= MAX_RETRY) by (rewrite Hr; lia).
  destruct (quiet_run pre st2 Hall Hb2) as (Q1 & Q2 & Q3 & Q4).
  destruct (got_ip_step ev (deliver pre st2) Hev)
    as (_ & G1 & G2 & G3 & G4 & G5).
  eexists. split.
  - intros post. apply Hwake; [exact G4 |].
    rewrite G3. unfold MAX_RETRY. lia.
  - rewrite phase_of_woken. split; [exact G5 |].
    split; [exact G3 |]. split; [reflexivity |].
    split.
    + unfold raises in *. cbn [trace record set_sem_given].
      rewrite count_app.
      change (count is_give [esp_register_shutdown_handler]) with 0%nat.
      lia.
    + unfold connects in *. cbn [trace record set_sem_given].
      rewrite count_app.
      change (count is_connect [esp_register_shutdown_handler]) with 0%nat.
      lia.
Qed.


Lemma sleep_never_aborts evs : forall st rc st',
  sleep_until_given evs st <> Aborted rc st'.
Proof using.
  induction evs as [|ev evs IH]; intros st rc st'; cbn [sleep_until_given];
    destruct (sem_given st); try discriminate.
  apply IH.
Qed.

(** X7.  What a return of [ESP_OK] tells the caller, for every SDK and
    every sequence of notifications, from a state whose counter is within
    its bounds: the caller was woken either by an address-acquired
    notification, and then the supervisor is in [Connected] with the
    counter at 0, or by a disconnect that found the budget used up, and
    then it is in [Failed] with the counter at [MAX_RETRY].  In both cases
    the slot is empty again.  The return value is the same in both. *)
Theorem configure_ok_means_connected_or_failed
        (ssid password : list byte) (evs : list event) (st st' : state) :
  0 <= s_retry_num st <= MAX_RETRY ->
  wifi_api_configure ssid password evs st = Returned ESP_OK st' ->
  sem_given st' = false /\
  ((phase_of st' = Connected /\ s_retry_num st' = 0) \/
   (phase_of st' = Failed /\ s_retry_num st' = MAX_RETRY)).
Proof using.
  clear case_labels_distinct.
  intros Hb Hrun. unfold wifi_api_configure, bind in Hrun.
  destruct (configure_until_take_cases ssid password st)
    as [(st1 & E & _ & Hr & Hs & _)
       | [(st1 & E & _) | (rc & st1 & tr & c & E & _)]];
    rewrite E in Hrun; try discriminate.
  unfold take_portMAX_DELAY in Hrun.
  set (st2 := record (xSemaphoreTake (s_ip_semaphore st1)) st1) in Hrun.
  assert (Hs2 : sem_given st2 = false) by exact Hs.
  assert (Hb2 : 0 <= s_retry_num st2 <= MAX_RETRY).
  { change (s_retry_num st2) with (s_retry_num st1). now rewrite Hr. }
  destruct (sleep_cases evs st2 Hs2)
    as [(Hblock & _) | (pre & ev & post & _ & Hq & Hfull & Hwake)];
    [rewrite Hblock in Hrun; discriminate |].
  rewrite Hwake in Hrun.
  pose proof (deliver_retry_bounds pre st2 Hb2) as Hb3.
  pose proof (handler_retry_bounds ev _ Hb3) as Hb4.
  set (st4 := wifi_api_event_handler ev (deliver pre st2)) in *.
  rewrite configure_after_take_in_bounds in Hrun
    by (cbn [s_retry_num set_sem_given]; lia).
  unfold ESP_ERROR_CHECK, bind, sdk_call, ret, abort in Hrun.
  destruct (_ =? ESP_OK); [| discriminate].
  injection Hrun as <-.
  split; [reflexivity |].
  rewrite phase_of_woken.
  destruct (handler_fills_slot ev (deliver pre st2) Hq Hfull)
    as [(P & R) | (P & R & _)]; fold st4 in P, R.
  - left. split; [exact P | exact R].
  - right. split; [exact P |].
    cbn [s_retry_num record set_sem_given]. lia.
Qed.

(** X8.  When no semaphore can be created, [wifi_api_configure] returns
    [ESP_FAIL] at once, whatever notifications are pending: it has
    initialised the storage, logged, asked for the semaphore and logged
    the failure, and nothing else.  No subscription is installed, no
    connect command is issued, the shutdown handler is not registered, the
    caller never blocks, and the variables other than [s_ip_semaphore],
    now NULL, are as before. *)
Theorem configure_fails_without_semaphore
        (ssid password : list byte) (evs : list event) (st : state) :
  sdk_ret sdk (trace st) nvs_flash_init = ESP_OK ->
  sdk_handle sdk
    (trace st ++ [nvs_flash_init; ESP_LOG LOGI "Configuring Wi-Fi..." []])
    xSemaphoreCreateBinary = 0 ->
  exists st',
    wifi_api_configure ssid password evs st = Returned ESP_FAIL st' /\
    trace st' = (trace st ++ failed_creation_calls)%list /\
    s_ip_semaphore st' = 0 /\
    s_retry_num st' = s_retry_num st /\
    s_sta_netif st' = s_sta_netif st /\
    instance_any_id st' = instance_any_id st /\
    instance_got_ip st' = instance_got_ip st /\
    count is_register (trace st') = count is_register (trace st) /\
    count is_connect (trace st') = count is_connect (trace st) /\
    count is_take (trace st') = count is_take (trace st) /\
    count is_shutdown_registration (trace st') =
      count is_shutdown_registration (trace st).
Proof using.
  clear case_labels_distinct.
  intros Hnvs Hnull.
  unfold wifi_api_configure, configure_until_take, initialize_nvs,
    ESP_ERROR_CHECK, ESP_LOGI, ESP_LOGE, sdk_call, sdk_new, bind, modify,
    ret, abort.
  cbn beta iota. rewrite Hnvs. cbn beta iota.
  change (ESP_OK =? ESP_OK) with true. cbn beta iota.
  simpl_state. rewrite <- app_assoc. cbn [app].
  rewrite Hnull. cbn beta iota.
  change (0 =? 0) with true. cbn beta iota.
  eexists. split; [reflexivity |].
  simpl_state.
  assert (Htr : ((((trace st ++ [nvs_flash_init]) ++
                   [ESP_LOG LOGI "Configuring Wi-Fi..." []]) ++
                  [xSemaphoreCreateBinary]) ++
                 [ESP_LOG LOGE "Failed to create semaphore" []])%list =
                (trace st ++ failed_creation_calls)%list).
  { now rewrite <- !app_assoc. }
  rewrite Htr, !count_app.
  repeat (split; [reflexivity |]).
  split; [| split; [| split]]; cbn; lia.
Qed.

(** *** Which calls an API function can issue *)

Section Emits.
Variable P : call -> bool.

Lemma emits_ret {A} (v : A) : emits P (ret v).
Proof using.
  intros st. exists []. split; [now rewrite app_nil_r | reflexivity].
Qed.

Lemma emits_abort {A} rc : emits P (@abort A rc).
Proof using.
  intros st. exists []. split; [now rewrite app_nil_r | reflexivity].
Qed.

Lemma emits_get {A} (g : state -> A) : emits P (get g).
Proof using.
  intros st. exists []. split; [now rewrite app_nil_r | reflexivity].
Qed.

Lemma emits_modify (g : state -> state) :
  (forall st, trace (g st) = trace st) -> emits P (modify g).
Proof using.
  intros Hg st. exists []. cbn [final modify].
  split; [now rewrite Hg, app_nil_r | reflexivity].
Qed.

Lemma emits_one (c : call) (g : state -> state) {A} (v : state -> A) :
  P c = true ->
  (forall st, trace (g st) = trace st) ->
  emits P (fun st => Returned (v st) (record c (g st))).
Proof using.
  intros Hc Hg st. exists [c]. cbn [final trace record]. rewrite Hg.
  split; [reflexivity |]. cbn [forallb]. now rewrite Hc.
Qed.

Lemma emits_bind {A B} (m : M A) (k : A -> M B) :
  emits P m -> (forall v, emits P (k v)) -> emits P (bind m k).
Proof using.
  intros Hm Hk st. destruct (Hm st) as (e1 & T1 & F1). unfold bind.
  destruct (m st) as [v st1 | rc st1 | st1]; cbn [final] in T1 |- *.
  - destruct (Hk v st1) as (e2 & T2 & F2).
    exists (e1 ++ e2)%list. rewrite T2, T1, app_assoc, forallb_app, F1, F2.
    now split.
  - exists e1. now split.
  - exists e1. now split.
Qed.

Lemma emits_log_ap_records aps :
  P (ESP_LOG LOGI "" []) = true ->
  (forall l f a, P (ESP_LOG l f a) = P (ESP_LOG LOGI "" [])) ->
  emits P (log_ap_records aps).
Proof using.
  intros Hlog Hall.
  assert (Hl : forall f a, emits P (ESP_LOGI f a)).
  { intros f a. apply (emits_one (ESP_LOG LOGI f a) (fun s => s) (fun _ => tt));
      [now rewrite Hall | reflexivity]. }
  induction aps as [|ap aps IH]; cbn [log_ap_records].
  - apply emits_ret.
  - apply emits_bind; [| intros _; exact IH].
    unfold log_ap_record.
    repeat (apply emits_bind; [apply Hl | intros _]). apply Hl.
Qed.

Lemma emits_count {A} (m : M A) (p : call -> bool) st :
  emits P m ->
  (forall c, P c = true -> p c = false) ->
  count p (trace (final (m st))) = count p (trace st).
Proof using.
  clear case_labels_distinct.
  intros Hm Hp. destruct (Hm st) as (ext & -> & F).
  rewrite count_app.
  assert (E : count p ext = 0%nat).
  { unfold count. induction ext as [|c ext IH]; [reflexivity |].
    cbn [forallb] in F. apply andb_prop in F as [Fc Fe].
    cbn [filter]. rewrite (Hp c Fc). now apply IH. }
  lia.
Qed.
End Emits.

Ltac emits_step :=
  first
    [ apply emits_bind; [| intros ?]
    | apply emits_ret
    | apply emits_abort
    | apply emits_get
    | apply emits_log_ap_records; [reflexivity | reflexivity]
    | apply (emits_one _ _ (fun s => s)); [reflexivity | reflexivity]
    | apply emits_modify; intros; reflexivity
    | match goal with
      | |- emits _ (if ?b then _ else _) => destruct b
      | |- emits _ (let '(_, _) := ?r in _) => destruct r
      end ].

Lemma scan_emits : emits is_scan_call wifi_api_scan.
Proof using.
  unfold wifi_api_scan. cbv zeta.
  unfold ESP_ERROR_CHECK, ESP_LOGI, sdk_call, sdk_out,
    esp_wifi_scan_get_ap_records_into, modify.
  repeat emits_step.
Qed.

Lemma disconnect_emits : emits is_release_call wifi_api_disconnect.
Proof using.
  unfold wifi_api_disconnect.
  unfold ESP_ERROR_CHECK, ESP_LOGI, sdk_call, modify.
  repeat emits_step.
Qed.

(** *** Aborts *)

(** From an equation [Aborted (sdk_ret ..) .. = Aborted rc st'] and the
    failed check [E]: the failing call and the trace before it. *)
Ltac abort_inv H E :=
  match type of H with
  | Aborted (sdk_ret ?o ?t ?c0) ?s = Aborted _ _ =>
      injection H as <- <-;
      exists t, c0;
      split; [simpl_state; reflexivity |];
      split; [reflexivity | exact E]
  end.

Lemma configure_after_take_abort st rc st' :
  configure_after_take st = Aborted rc st' ->
  exists tr c,
    trace st' = (tr ++ [c])%list /\ sdk_ret sdk tr c = rc /\ rc <> ESP_OK.
Proof using.
  clear case_labels_distinct.
  unfold configure_after_take, ESP_ERROR_CHECK, sdk_call, bind, get, ret,
    abort.
  destruct (s_retry_num st >? MAX_RETRY); [discriminate |].
  destruct (Z.eqb_spec (sdk_ret sdk (trace st) esp_register_shutdown_handler)
                       ESP_OK) as [E|E]; [discriminate |].
  intros H. abort_inv H E.
Qed.

Lemma disconnect_abort st rc st' :
  wifi_api_disconnect st = Aborted rc st' ->
  exists tr c,
    trace st' = (tr ++ [c])%list /\ sdk_ret sdk tr c = rc /\ rc <> ESP_OK.
Proof using.
  clear case_labels_distinct.
  unfold wifi_api_disconnect, ESP_ERROR_CHECK, ESP_LOGI, sdk_call, bind,
    modify, get, ret, abort.
  cbn beta iota.
  match goal with
  | |- context [if ?b =? ESP_OK then _ else _] =>
      destruct (Z.eqb_spec b ESP_OK) as [E1|E1]
  end; cbn beta iota; [| intros H; abort_inv H E1].
  match goal with
  | |- context [if ?b =? ESP_OK then _ else _] =>
      destruct (Z.eqb_spec b ESP_OK) as [E2|E2]
  end; cbn beta iota; [| intros H; abort_inv H E2].
  match goal with
  | |- context [if ?b =? 0 then _ else _] => destruct (b =? 0)
  end; discriminate.
Qed.

Lemma scan_abort st rc st' :
  wifi_api_scan st = Aborted rc st' ->
  exists tr c,
    trace st' = (tr ++ [c])%list /\ sdk_ret sdk tr c = rc /\ rc <> ESP_OK.
Proof using.
  clear case_labels_distinct.
  unfold wifi_api_scan. cbv zeta.
  unfold ESP_ERROR_CHECK, ESP_LOGI, sdk_call, sdk_out,
    esp_wifi_scan_get_ap_records_into, bind, modify, ret, abort.
  cbn beta iota.
  match goal with
  | |- context [if ?b =? ESP_OK then _ else _] =>
      destruct (Z.eqb_spec b ESP_OK) as [E1|E1]
  end; cbn beta iota; [| intros H; abort_inv H E1].
  match goal with
  | |- context [if ?b =? ESP_OK then _ else _] =>
      destruct (Z.eqb_spec b ESP_OK) as [E2|E2]
  end; cbn beta iota; [| intros H; abort_inv H E2].
  match goal with
  | |- context [if ?b =? ESP_OK then _ else _] =>
      destruct (Z.eqb_spec b ESP_OK) as [E3|E3]
  end; cbn beta iota; [| intros H; abort_inv H E3].
  intros H.
  match type of H with
  | log_ap_records ?aps ?s = _ =>
      destruct (log_ap_records_lines aps s) as (s' & Hr & _);
        rewrite Hr in H; discriminate
  end.
Qed.

(** X9.  An API call dies only in an [ESP_ERROR_CHECK] whose SDK call
    failed: whenever [wifi_api_configure], [wifi_api_disconnect] or
    [wifi_api_scan] ends in an abort, the last call of its trace is an SDK
    call that returned an error, that error is the abort code, and no call
    (no cleanup either) follows it.  [wifi_api_alter_sta] never aborts. *)
Theorem abort_means_last_sdk_call_failed :
  (forall ssid password evs st rc st',
      wifi_api_configure ssid password evs st = Aborted rc st' ->
      exists tr c,
        trace st' = (tr ++ [c])%list /\ sdk_ret sdk tr c = rc /\
        rc <> ESP_OK) /\
  (forall st rc st',
      wifi_api_disconnect st = Aborted rc st' ->
      exists tr c,
        trace st' = (tr ++ [c])%list /\ sdk_ret sdk tr c = rc /\
        rc <> ESP_OK) /\
  (forall st rc st',
      wifi_api_scan st = Aborted rc st' ->
      exists tr c,
        trace st' = (tr ++ [c])%list /\ sdk_ret sdk tr c = rc /\
        rc <> ESP_OK) /\
  (forall new_ssid new_password st rc st',
      wifi_api_alter_sta new_ssid new_password st <> Aborted rc st').
Proof using.
  clear case_labels_distinct.
  split; [| split; [exact disconnect_abort | split; [exact scan_abort |]]].
  - intros ssid password evs st rc st' Hrun.
    unfold wifi_api_configure, bind in Hrun.
    destruct (configure_until_take_cases ssid password st)
      as [(st1 & E & _) | [(st1 & E & _) | (rc1 & st1 & tr & c & E & F)]];
      rewrite E in Hrun.
    + unfold take_portMAX_DELAY in Hrun.
      destruct (sleep_until_given evs _) as [[] st2 | rc2 st2 | st2] eqn:S.
      * now apply configure_after_take_abort in Hrun.
      * now apply sleep_never_aborts in S.
      * discriminate.
    + discriminate.
    + injection Hrun as <- <-. exists tr, c. exact F.
  - intros new_ssid new_password st rc st'. discriminate.
Qed.

(** *** Disconnect, scan and shutdown as seen by a caller *)

Lemma disconnect_same_variables st :
  same_variables st (final (wifi_api_disconnect st)).
Proof using.
  unfold same_variables.
  rewrite disconnect_keeps_semaphore, disconnect_keeps_retry,
    disconnect_keeps_any_id, disconnect_keeps_got_ip.
  assert (K1 : keeps s_sta_netif wifi_api_disconnect)
    by (unfold wifi_api_disconnect; keeps_all).
  assert (K2 : keeps sem_given wifi_api_disconnect)
    by (unfold wifi_api_disconnect; keeps_all).
  rewrite K1, K2. repeat split.
Qed.

Lemma scan_same_variables st :
  same_variables st (final (wifi_api_scan st)).
Proof using.
  unfold same_variables. rewrite scan_keeps_retry.
  assert (K1 : keeps s_sta_netif wifi_api_scan)
    by (unfold wifi_api_scan; cbv zeta; keeps_all).
  assert (K2 : keeps s_ip_semaphore wifi_api_scan)
    by (unfold wifi_api_scan; cbv zeta; keeps_all).
  assert (K3 : keeps instance_any_id wifi_api_scan)
    by (unfold wifi_api_scan; cbv zeta; keeps_all).
  assert (K4 : keeps instance_got_ip wifi_api_scan)
    by (unfold wifi_api_scan; cbv zeta; keeps_all).
  assert (K5 : keeps sem_given wifi_api_scan)
    by (unfold wifi_api_scan; cbv zeta; keeps_all).
  rewrite K1, K2, K3, K4, K5. repeat split.
Qed.

(** X10.  [wifi_api_disconnect] in full.  It never blocks and writes none
    of the file-scope variables.  It unregisters the two stored instances
    in order; if an unregistration fails the program aborts with that
    error, the semaphore is not deleted and no disconnect command is
    issued.  Otherwise it deletes the semaphore when the handle is not
    NULL, issues the disconnect command and returns that command's result,
    an error included.  It never issues a connect command and never gives
    or takes the semaphore. *)
Theorem disconnect_outcomes (st : state) :
  let st' := final (wifi_api_disconnect st) in
  let any_id :=
    esp_event_handler_instance_unregister WIFI_EVENT_ANY_ID (instance_any_id st) in
  let got_ip :=
    esp_event_handler_instance_unregister IP_EVENT_GOT_IP (instance_got_ip st) in
  let t1 := (trace st ++ [ESP_LOG LOGI "Disconnecting Wi-Fi..." []])%list in
  let t2 := (t1 ++ [any_id])%list in
  let t3 := (t2 ++ [got_ip])%list in
  let t4 := (t3 ++ (if s_ip_semaphore st =? 0 then []
                    else [vSemaphoreDelete (s_ip_semaphore st)]))%list in
  same_variables st st' /\
  raises st' = raises st /\
  connects st' = connects st /\
  count is_take (trace st') = count is_take (trace st) /\
  ((sdk_ret sdk t1 any_id <> ESP_OK /\
    wifi_api_disconnect st = Aborted (sdk_ret sdk t1 any_id) st' /\
    trace st' = t2) \/
   (sdk_ret sdk t1 any_id = ESP_OK /\
    sdk_ret sdk t2 got_ip <> ESP_OK /\
    wifi_api_disconnect st = Aborted (sdk_ret sdk t2 got_ip) st' /\
    trace st' = t3) \/
   (sdk_ret sdk t1 any_id = ESP_OK /\
    sdk_ret sdk t2 got_ip = ESP_OK /\
    wifi_api_disconnect st =
      Returned (sdk_ret sdk t4 esp_wifi_disconnect) st' /\
    trace st' = (t4 ++ [esp_wifi_disconnect])%list)).
Proof using.
  clear case_labels_distinct.
  intros st' any_id got_ip t1 t2 t3 t4.
  split; [apply disconnect_same_variables |].
  split; [apply (emits_count _ _ _ _ disconnect_emits);
          now intros [] |].
  split; [apply (emits_count _ _ _ _ disconnect_emits);
          now intros [] |].
  split; [apply (emits_count _ _ _ _ disconnect_emits);
          now intros [] |].
  subst st'.
  unfold wifi_api_disconnect, ESP_ERROR_CHECK, ESP_LOGI, sdk_call, bind,
    modify, get, ret, abort.
  cbn beta iota. simpl_state. fold any_id got_ip t1.
  destruct (Z.eqb_spec (sdk_ret sdk t1 any_id) ESP_OK) as [E1|E1];
    cbn beta iota.
  2:{ left. split; [exact E1 |]. split; reflexivity. }
  simpl_state. fold any_id got_ip t1 t2.
  destruct (Z.eqb_spec (sdk_ret sdk t2 got_ip) ESP_OK) as [E2|E2];
    cbn beta iota.
  2:{ right; left. split; [exact E1 |]. split; [exact E2 |].
      split; reflexivity. }
  right; right. split; [exact E1 |]. split; [exact E2 |].
  simpl_state. fold any_id got_ip t1 t2 t3.
  unfold t4.
  destruct (s_ip_semaphore st =? 0); cbn beta iota; simpl_state;
    fold any_id got_ip t1 t2 t3.
  - rewrite app_nil_r. split; reflexivity.
  - split; reflexivity.
Qed.

(** X11.  [wifi_api_scan] is read-only for the supervisor: however it
    ends, the file-scope variables and the semaphore slot are as before and
    everything it added to the trace is a scan call or a log line, so it
    issues no connect or disconnect command and neither gives nor takes
    the semaphore.  When it returns it has printed exactly
    [min 10 n] records, [n] being the number of access points found. *)
Theorem scan_is_read_only (st : state) :
  let st' := final (wifi_api_scan st) in
  same_variables st st' /\
  (exists ext,
      trace st' = (trace st ++ ext)%list /\ forallb is_scan_call ext = true) /\
  raises st' = raises st /\
  connects st' = connects st /\
  count is_take (trace st') = count is_take (trace st) /\
  count is_sdk_disconnect (trace st') = count is_sdk_disconnect (trace st) /\
  (wifi_api_scan st = Returned tt st' ->
   List.length (authmode_lines (trace st')) =
   (List.length (authmode_lines (trace st)) +
    Nat.min 10 (List.length (sdk_scan sdk (trace st ++ scan_prefix))))%nat).
Proof using.
  clear case_labels_distinct.
  intros st'.
  split; [apply scan_same_variables |].
  split; [apply scan_emits |].
  split; [apply (emits_count _ _ _ _ scan_emits); now intros [] |].
  split; [apply (emits_count _ _ _ _ scan_emits); now intros [] |].
  split; [apply (emits_count _ _ _ _ scan_emits); now intros [] |].
  split; [apply (emits_count _ _ _ _ scan_emits); now intros [] |].
  intros Hrun. subst st'.
  destruct (scan_cases st) as [(rc & st1 & H1 & _) | (st1 & H1 & H2)];
    rewrite H1 in Hrun |- *; [discriminate |].
  cbn [final]. rewrite H2, length_app, length_map, length_firstn.
  reflexivity.
Qed.

(** X12.  [wifi_api_shutdown] tears down in a fixed order and stops at the
    first failure.  When it returns it has stopped and deinitialised the
    driver, cleared the default handlers of the interface in
    [s_sta_netif], destroyed that interface, and set [s_sta_netif] to
    NULL.  When one of the three checked calls fails, the program aborts
    with its error: the calls made are a proper initial part of that
    sequence ending in the failed call, the interface is not destroyed and
    [s_sta_netif] still holds it. *)
Theorem shutdown_tears_down_in_order
        (answer : list teardown_call -> teardown_call -> esp_err_t)
        (netif : Z) :
  match wifi_api_shutdown answer netif with
  | TornDown netif' calls =>
      netif' = 0 /\ calls = full_teardown netif
  | TeardownAborted rc netif' calls =>
      netif' = netif /\
      rc <> ESP_OK /\
      count_occ_destroy calls = 0%nat /\
      exists before c rest,
        calls = (before ++ [c])%list /\
        answer before c = rc /\
        rest <> [] /\
        full_teardown netif = (calls ++ rest)%list
  end.
Proof using.
  clear case_labels_distinct.
  unfold wifi_api_shutdown. cbv zeta.
  destruct (Z.eqb_spec (answer [SHUTDOWN_LOG "Shutting down Wi-Fi..."]
                               esp_wifi_stop) ESP_OK) as [E1|E1];
    cbn [negb].
  2:{ split; [reflexivity |]. split; [exact E1 |]. split; [reflexivity |].
      eexists _, _, _. split; [reflexivity |]. split; [reflexivity |].
      split; [| reflexivity]. discriminate. }
  match goal with
  | |- context [negb (?b =? ESP_OK)] =>
      destruct (Z.eqb_spec b ESP_OK) as [E2|E2]
  end; cbn [negb].
  2:{ split; [reflexivity |]. split; [exact E2 |]. split; [reflexivity |].
      eexists _, _, _. split; [reflexivity |]. split; [reflexivity |].
      split; [| reflexivity]. discriminate. }
  match goal with
  | |- context [negb (?b =? ESP_OK)] =>
      destruct (Z.eqb_spec b ESP_OK) as [E3|E3]
  end; cbn [negb].
  2:{ split; [reflexivity |]. split; [exact E3 |]. split; [reflexivity |].
      eexists _, _, _. split; [reflexivity |]. split; [reflexivity |].
      split; [| reflexivity]. discriminate. }
  split; reflexivity.
Qed.

(** *** Handles *)

Lemma handler_frame_step ev st :
  let st' := wifi_api_event_handler ev st in
  handles st' = handles st /\
  (sem_given st = true -> sem_given st' = true) /\
  exists ext,
    trace st' = (trace st ++ ext)%list /\
    forallb (is_handler_call (s_ip_semaphore st)) ext = true.
Proof using.
  clear case_labels_distinct.
  unfold wifi_api_event_handler.
  destruct (event_id ev =? WIFI_EVENT_STA_START).
  { split; [reflexivity |]. split; [auto |].
    exists [esp_wifi_connect]. split; reflexivity. }
  destruct (event_id ev =? WIFI_EVENT_STA_DISCONNECTED).
  - destruct (s_retry_num st <? MAX_RETRY).
    + split; [reflexivity |]. split; [auto |].
      exists [esp_wifi_connect; ESP_LOG LOGI "Retry to connect to the AP" []].
      split; [| reflexivity]. simpl_state. now rewrite <- app_assoc.
    + split; [reflexivity |]. split; [reflexivity |].
      exists [xSemaphoreGive (s_ip_semaphore st);
              ESP_LOG LOGI "Connect to the AP fail" []].
      split; [simpl_state; now rewrite <- app_assoc |].
      cbn [forallb is_handler_call]. now rewrite Z.eqb_refl.
  - destruct (event_id ev =? IP_EVENT_STA_GOT_IP).
    + split; [reflexivity |]. split; [reflexivity |].
      exists [ESP_LOG LOGI ("Got ip:" ++ IPSTR) (IP2STR (event_ip ev));
              xSemaphoreGive (s_ip_semaphore st)].
      split; [simpl_state; now rewrite <- app_assoc |].
      cbn [forallb is_handler_call]. now rewrite Z.eqb_refl.
    + split; [reflexivity |]. split; [auto |].
      exists []. split; [now rewrite app_nil_r | reflexivity].
Qed.

Lemma deliver_frame evs : forall st,
  let st' := deliver evs st in
  handles st' = handles st /\
  (sem_given st = true -> sem_given st' = true) /\
  exists ext,
    trace st' = (trace st ++ ext)%list /\
    forallb (is_handler_call (s_ip_semaphore st)) ext = true.
Proof using.
  induction evs as [|ev evs IH]; intros st.
  - split; [reflexivity |]. split; [auto |].
    exists []. split; [now rewrite app_nil_r | reflexivity].
  - destruct (handler_frame_step ev st) as (H1 & S1 & e1 & T1 & F1).
    destruct (IH (wifi_api_event_handler ev st)) as (H2 & S2 & e2 & T2 & F2).
    cbv zeta.
    change (deliver (ev :: evs) st)
      with (deliver evs (wifi_api_event_handler ev st)).
    split; [now rewrite H2 |]. split; [auto |].
    exists (e1 ++ e2)%list. rewrite T2, T1, app_assoc. split; [reflexivity |].
    rewrite forallb_app, F1.
    assert (Hh : s_ip_semaphore (wifi_api_event_handler ev st) =
                 s_ip_semaphore st).
    { unfold handles in H1. now injection H1. }
    now rewrite <- Hh.
Qed.

(** X13.  The event handler never writes one of the four handles, never
    empties a full semaphore slot, and issues nothing but connect
    commands, gives on the semaphore stored in [s_ip_semaphore], and log
    lines: after any sequence of notifications the handles are as before
    and the trace has grown by such calls only.  In particular the handler
    never unregisters itself, never deletes the semaphore and never issues
    a disconnect command. *)
Theorem handler_frame (evs : list event) (st : state) :
  let st' := deliver evs st in
  handles st' = handles st /\
  (sem_given st = true -> sem_given st' = true) /\
  exists ext,
    trace st' = (trace st ++ ext)%list /\
    forallb (is_handler_call (s_ip_semaphore st)) ext = true.
Proof using.
  apply deliver_frame.
Qed.

Lemma sleep_keeps_handles evs : forall st,
  handles (final (sleep_until_given evs st)) = handles st.
Proof using.
  induction evs as [|ev evs IH]; intros st; cbn [sleep_until_given];
    destruct (sem_given st); try reflexivity.
  rewrite IH. apply (handler_frame_step ev st).
Qed.

Lemma configure_until_take_handles ssid password st st1 :
  configure_until_take ssid password st = Returned None st1 ->
  let calls := configure_calls ssid password in
  handles st1 =
  (sdk_handle sdk (trace st ++ firstn 6 calls) esp_netif_create_wifi,
   sdk_handle sdk (trace st ++ firstn 2 calls) xSemaphoreCreateBinary,
   sdk_handle sdk (trace st ++ firstn 11 calls)
              (esp_event_handler_instance_register WIFI_EVENT_ANY_ID),
   sdk_handle sdk (trace st ++ firstn 12 calls)
              (esp_event_handler_instance_register IP_EVENT_GOT_IP)).
Proof using.
  clear case_labels_distinct.
  unfold configure_until_take, initialize_nvs, ESP_ERROR_CHECK, ESP_LOGI,
    ESP_LOGE, sdk_call, sdk_new, register, bind, modify, ret, abort.
  cbn beta iota.
  destruct (_ =? ESP_OK); [| discriminate].
  cbn beta iota.
  match goal with
  | |- context [if ?h =? 0 then _ else _] => destruct (h =? 0)
  end; cbn beta iota; [discriminate |].
  repeat match goal with
         | |- context [if ?b =? ESP_OK then _ else _] =>
             destruct (b =? ESP_OK); cbn beta iota; [| discriminate]
         end.
  intros [= <-]. cbv zeta. unfold handles. simpl_state.
  cbn [firstn configure_calls]. rewrite <- !app_assoc. reflexivity.
Qed.

(** X14.  [wifi_api_disconnect] releases what [wifi_api_configure]
    acquired.  After a [wifi_api_configure] that returned [ESP_OK],
    whatever notifications were delivered meanwhile, the four handles are
    the ones the SDK handed out during that call and the semaphore handle
    is not NULL; a [wifi_api_disconnect] that returns has unregistered
    exactly the two instances registered by that call, deleted exactly the
    semaphore created by it, and issued the disconnect command, in this
    order.  The handles still hold the released objects afterwards. *)
Theorem disconnect_releases_what_configure_acquired
        (ssid password : list byte) (evs : list event) (st st1 : state) :
  wifi_api_configure ssid password evs st = Returned ESP_OK st1 ->
  let calls := configure_calls ssid password in
  let netif :=
    sdk_handle sdk (trace st ++ firstn 6 calls) esp_netif_create_wifi in
  let sem :=
    sdk_handle sdk (trace st ++ firstn 2 calls) xSemaphoreCreateBinary in
  let any_id :=
    sdk_handle sdk (trace st ++ firstn 11 calls)
               (esp_event_handler_instance_register WIFI_EVENT_ANY_ID) in
  let got_ip :=
    sdk_handle sdk (trace st ++ firstn 12 calls)
               (esp_event_handler_instance_register IP_EVENT_GOT_IP) in
  handles st1 = (netif, sem, any_id, got_ip) /\
  sem <> 0 /\
  forall v st2,
    wifi_api_disconnect st1 = Returned v st2 ->
    trace st2 =
      (trace st1 ++
       [ESP_LOG LOGI "Disconnecting Wi-Fi..." [];
        esp_event_handler_instance_unregister WIFI_EVENT_ANY_ID any_id;
        esp_event_handler_instance_unregister IP_EVENT_GOT_IP got_ip;
        vSemaphoreDelete sem;
        esp_wifi_disconnect])%list /\
    handles st2 = handles st1.
Proof using.
  clear case_labels_distinct.
  intros Hrun calls netif sem any_id got_ip.
  assert (Hh : handles st1 = (netif, sem, any_id, got_ip) /\ sem <> 0).
  { unfold wifi_api_configure, bind in Hrun.
    destruct (configure_until_take_cases ssid password st)
      as [(st0 & E & _ & _ & _ & Hne)
         | [(st0 & E & _) | (rc & st0 & tr & c & E & _)]];
      rewrite E in Hrun; try discriminate.
    pose proof (configure_until_take_handles ssid password st st0 E) as H0.
    cbv zeta in H0. fold calls netif sem any_id got_ip in H0.
    unfold take_portMAX_DELAY in Hrun.
    pose proof (sleep_keeps_handles evs
                  (record (xSemaphoreTake (s_ip_semaphore st0)) st0)) as Hs.
    destruct (sleep_until_given evs _) as [[] st2 | |]; try discriminate.
    cbn [final] in Hs.
    assert (K : keeps handles configure_after_take)
      by (unfold configure_after_take; keeps_all).
    specialize (K st2). rewrite Hrun in K. cbn [final] in K.
    split.
    - rewrite K, Hs. exact H0.
    - assert (Es : s_ip_semaphore st0 = sem).
      { unfold handles in H0. now injection H0. }
      now rewrite <- Es. }
  destruct Hh as (Hh & Hne). split; [exact Hh |]. split; [exact Hne |].
  intros v st2 Hd.
  destruct (disconnect_returns st1 v st2 Hd) as (T & _ & S & A & G).
  unfold handles in Hh. injection Hh as Hn Hs Ha Hg.
  split.
  - rewrite T, Hs, Ha, Hg.
    destruct (Z.eqb_spec sem 0) as [E|_]; [contradiction |].
    now rewrite <- !app_assoc.
  - unfold handles. rewrite S, A, G.
    assert (K : keeps s_sta_netif wifi_api_disconnect)
      by (unfold wifi_api_disconnect; keeps_all).
    specialize (K st1). rewrite Hd in K. cbn [final] in K. now rewrite K.
Qed.

End Supervisor.

(** * The ESP32 instance: worked scenarios *)

Import Esp32.

Lemma esp32_case_labels_distinct :
  WIFI_EVENT_STA_START <> WIFI_EVENT_STA_DISCONNECTED /\
  WIFI_EVENT_STA_START <> IP_EVENT_STA_GOT_IP /\
  WIFI_EVENT_STA_DISCONNECTED <> IP_EVENT_STA_GOT_IP.
Proof. repeat split; discriminate. Qed.

Abbreviation handler :=
  (wifi_api_event_handler WIFI_EVENT_STA_START WIFI_EVENT_STA_DISCONNECTED
                          IP_EVENT_STA_GOT_IP).
Abbreviation run :=
  (deliver WIFI_EVENT_STA_START WIFI_EVENT_STA_DISCONNECTED IP_EVENT_STA_GOT_IP).
Abbreviation configure :=
  (wifi_api_configure WIFI_EVENT_STA_START WIFI_EVENT_STA_DISCONNECTED
                      IP_EVENT_STA_GOT_IP).

Lemma all_disconnected n :
  Forall (is_disconnected WIFI_EVENT_STA_DISCONNECTED) (repeat disconnected n).
Proof.
  induction n as [|n IH]; cbn [repeat]; constructor; [reflexivity | exact IH].
Defined.

(** The tenth disconnect notification in a row is still retried. *)
Lemma disconnect_below_budget_retries_witness :
  let st := run (repeat disconnected 9) initial_state in
  let st' := handler disconnected st in
  trace st' =
    (trace st ++
     [esp_wifi_connect; ESP_LOG LOGI "Retry to connect to the AP" []])%list /\
  connects st' = S (connects st) /\
  s_retry_num st' = 9 + 1 /\
  raises st' = raises st /\
  sem_given st' = sem_given st /\
  phase_of st' = Connecting.
Proof.
  apply (disconnect_below_budget_retries _ _ _ esp32_case_labels_distinct 9
           disconnected (run (repeat disconnected 9) initial_state)).
  - unfold MAX_RETRY. lia.
  - reflexivity.
  - reflexivity.
Defined.

(** Ten disconnect notifications and then an eleventh. *)
Lemma disconnect_at_budget_fails_witness :
  let st10 := run (repeat disconnected 10) initial_state in
  let st11 := run (repeat disconnected 10 ++ [disconnected]) initial_state in
  raises st10 = 0%nat /\
  sem_given st10 = false /\
  s_retry_num st10 = 10 /\
  raises st11 = 1%nat /\
  sem_given st11 = true /\
  s_retry_num st11 = 10 /\
  phase_of st11 = Failed.
Proof.
  apply (proj2 (proj2 (disconnect_at_budget_fails _ _ _ esp32_case_labels_distinct))).
  - apply all_disconnected.
  - reflexivity.
  - reflexivity.
Defined.

(** Three disconnect notifications and then the address. *)
Lemma got_ip_resets_and_signals_witness :
  let st3 := run (repeat disconnected 3) initial_state in
  let st4 := run (repeat disconnected 3 ++ [got_ip]) initial_state in
  raises st3 = 0%nat /\
  sem_given st3 = false /\
  s_retry_num st3 = 3 /\
  raises st4 = 1%nat /\
  sem_given st4 = true /\
  s_retry_num st4 = 0 /\
  phase_of st4 = Connected.
Proof.
  apply (proj2 (got_ip_resets_and_signals _ _ _ esp32_case_labels_distinct)).
  - apply all_disconnected.
  - reflexivity.
  - reflexivity.
Defined.

(** When no semaphore can be allocated [wifi_api_configure] returns
    [ESP_FAIL] from line 200, before it blocks. *)
Lemma retry_counter_never_exceeds_MAX_RETRY_witness :
  let st' := final (configure sdk_no_semaphore ssid password [] initial_state) in
  configure sdk_no_semaphore ssid password [] initial_state =
    Returned ESP_FAIL st' /\
  configure_until_take sdk_no_semaphore ssid password initial_state =
    Returned (Some ESP_FAIL) st' /\
  0 <= s_retry_num (run (repeat disconnected 11) initial_state) <= MAX_RETRY.
Proof.
  intros st'. split; [reflexivity |]. split.
  - apply (proj2 (proj2 (proj2 (retry_counter_never_exceeds_MAX_RETRY
                           WIFI_EVENT_STA_START WIFI_EVENT_STA_DISCONNECTED
                           IP_EVENT_STA_GOT_IP sdk_no_semaphore))))
      with (evs := @nil event) (v := ESP_FAIL).
    + cbn. unfold MAX_RETRY. lia.
    + reflexivity.
    + reflexivity.
  - apply (proj1 (proj2 (retry_counter_never_exceeds_MAX_RETRY
                           WIFI_EVENT_STA_START WIFI_EVENT_STA_DISCONNECTED
                           IP_EVENT_STA_GOT_IP sdk_ok))).
Defined.

(** The scan of the spec's scenario: six records with the auth-mode codes
    0, 1, 2, 3, 4 and 99. *)
Lemma scan_classifies_authmode_witness :
  let st' := final (wifi_api_scan sdk_six_aps initial_state) in
  authmode_lines (trace st') =
    (authmode_lines (trace initial_state) ++
     map (fun ap => auth_class_name (spec_classify (ap_authmode ap)))
         (firstn 10 (sdk_scan sdk_six_aps (trace initial_state ++ scan_prefix))))%list /\
  authmode_lines (trace st') =
    ["WIFI_AUTH_OPEN"; "WIFI_AUTH_WEP"; "WIFI_AUTH_WPA_PSK";
     "WIFI_AUTH_WPA2_PSK"; "WIFI_AUTH_WPA_WPA2_PSK"; "WIFI_AUTH_UNKNOWN"].
Proof.
  intros st'. split.
  - apply (proj2 (proj2 (proj2 (scan_classifies_authmode sdk_six_aps)))).
    reflexivity.
  - reflexivity.
Defined.

(** Twelve access points found: ten printed. *)
Example scan_prints_ten_of_twelve :
  List.length
    (authmode_lines (trace (final (wifi_api_scan sdk_twelve_aps initial_state))))
  = 10%nat.
Proof. reflexivity. Qed.

(** ** Where the code departs from its documentation *)

(** C1.  The retry budget runs out: eleven disconnect notifications while
    the caller is blocked.  The caller wakes in [Failed] with
    [s_retry_num = MAX_RETRY]; the test [s_retry_num > MAX_RETRY] of line
    256 is false, the shutdown handler is registered and
    [wifi_api_configure] returns [ESP_OK], the value it also returns after
    an address was acquired. *)
Theorem configure_returns_ok_after_exhausted_retries :
  let failed := configure sdk_ok ssid password (repeat disconnected 11) initial_state in
  let connected := configure sdk_ok ssid password [got_ip] initial_state in
  failed = Returned ESP_OK (final failed) /\
  phase_of (final failed) = Failed /\
  s_retry_num (final failed) = MAX_RETRY /\
  raises (final failed) = 1%nat /\
  count is_connect (trace (final failed)) = 11%nat /\
  connected = Returned ESP_OK (final connected) /\
  phase_of (final connected) = Connected /\
  ESP_OK <> ESP_FAIL.
Proof.
  cbv zeta. repeat (split; [vm_compute; reflexivity |]).
  vm_compute. discriminate.
Qed.

(** C2 fails on the code.  After a [wifi_api_configure] that ran out of
    retries the counter is 10, and a second call reaches its
    [xSemaphoreTake] with the counter still at 10, not 0. *)
Lemma configure_keeps_stale_retry_count :
  let st1 := final (configure sdk_ok ssid password (repeat disconnected 11)
                              initial_state) in
  let st2 := final (configure_until_take sdk_ok ssid password st1) in
  s_retry_num st1 = 10 /\
  configure_until_take sdk_ok ssid password st1 = Returned None st2 /\
  s_retry_num st2 = 10 /\
  s_retry_num st2 <> 0.
Proof.
  cbv zeta. repeat (split; [vm_compute; reflexivity |]).
  vm_compute. discriminate.
Qed.

(** C6.  [wifi_api_disconnect] clears none of the handles it releases.
    After a successful [wifi_api_configure], a first call deletes the
    semaphore and unregisters both instances; a second call passes the
    same, dangling, semaphore handle to [vSemaphoreDelete] once more and
    unregisters the same two instances again.  And on a supervisor that
    was never configured, with an event loop that rejects a NULL instance,
    the unguarded unregister step aborts the program. *)
Theorem second_disconnect_releases_again :
  let st1 := final (configure sdk_ok ssid password [got_ip] initial_state) in
  let st2 := final (wifi_api_disconnect sdk_ok st1) in
  let st3 := final (wifi_api_disconnect sdk_ok st2) in
  configure sdk_ok ssid password [got_ip] initial_state = Returned ESP_OK st1 /\
  wifi_api_disconnect sdk_ok st1 = Returned ESP_OK st2 /\
  wifi_api_disconnect sdk_ok st2 = Returned ESP_OK st3 /\
  s_ip_semaphore st1 = SEM /\
  s_ip_semaphore st2 = SEM /\
  count is_create (trace st3) = 1%nat /\
  count (is_delete_of SEM) (trace st2) = 1%nat /\
  count (is_delete_of SEM) (trace st3) = 2%nat /\
  count (is_unregister_of (instance_any_id st1)) (trace st3) = 2%nat /\
  count (is_unregister_of (instance_got_ip st1)) (trace st3) = 2%nat /\
  wifi_api_disconnect sdk_null_instance_rejected initial_state =
    Aborted 258 (final (wifi_api_disconnect sdk_null_instance_rejected
                                            initial_state)).
Proof.
  cbv zeta. repeat (split; [vm_compute; reflexivity |]).
  vm_compute. reflexivity.
Qed.

(** C7.  [wifi_api_alter_sta] drops the result of every SDK call: when the
    driver rejects the new configuration it still returns [ESP_OK].
    [wifi_api_disconnect] hands an error of an unregister step to
    [ESP_ERROR_CHECK], which aborts instead of returning it. *)
Theorem alter_returns_ok_when_set_config_fails :
  let out := wifi_api_alter_sta sdk_set_config_fails ssid password initial_state in
  (forall tr wc, sdk_ret sdk_set_config_fails tr (esp_wifi_set_config wc) = 12289) /\
  out = Returned ESP_OK (final out) /\
  count is_connect (trace (final out)) = 1%nat /\
  wifi_api_disconnect sdk_null_instance_rejected initial_state =
    Aborted 258 (final (wifi_api_disconnect sdk_null_instance_rejected
                                            initial_state)).
Proof.
  cbv zeta. split; [intros tr wc; reflexivity |].
  repeat (split; [vm_compute; reflexivity |]).
  vm_compute. reflexivity.
Qed.

(** ** Scenarios for the further properties *)

Import Scenario.


(** Thirty-two new characters over a full SSID member: thirty-one of them
    are stored, followed by the old last byte. *)
Lemma alter_keeps_last_byte_witness :
  c_str (sta_ssid (alter_wc long_ssid long_password full_wc)) =
  (firstn 31 (c_str long_ssid) ++ c_str [nth 31 (sta_ssid full_wc) x00])%list.
Proof.
  apply (alter_keeps_last_byte long_ssid long_password full_wc).
  - reflexivity.
  - reflexivity.
  - vm_compute. lia.
Defined.



Lemma sdk_ok_all_ok : sdk_all_ok sdk_ok.
Proof. intros tr c. reflexivity. Defined.

Lemma sdk_ok_has_semaphore : sdk_has_semaphore sdk_ok.
Proof. intros tr. discriminate. Defined.

Lemma disconnects_have_no_address n :
  Forall (no_address IP_EVENT_STA_GOT_IP) (repeat disconnected n).
Proof.
  induction n as [|n IH]; cbn [repeat]; constructor;
    [discriminate | exact IH].
Defined.

(** Ten disconnects: still blocked. *)
Lemma configure_blocks_without_terminal_notification_witness :
  exists st',
    configure sdk_ok ssid password (repeat disconnected 10) initial_state =
      Blocked st' /\
    sem_given st' = false /\
    raises st' = raises initial_state /\
    s_retry_num st' =
      s_retry_num initial_state +
      Z.of_nat (disconnected_in WIFI_EVENT_STA_DISCONNECTED
                                (repeat disconnected 10)) /\
    Z.of_nat (connects st') =
      Z.of_nat (connects initial_state) + 1 +
      Z.of_nat (sta_start_in WIFI_EVENT_STA_START (repeat disconnected 10)) +
      Z.of_nat (disconnected_in WIFI_EVENT_STA_DISCONNECTED
                                (repeat disconnected 10)).
Proof.
  apply (configure_blocks_without_terminal_notification
           _ _ _ esp32_case_labels_distinct sdk_ok ssid password
           (repeat disconnected 10) initial_state).
  - exact sdk_ok_all_ok.
  - exact sdk_ok_has_semaphore.
  - vm_compute. discriminate.
  - apply disconnects_have_no_address.
  - vm_compute. discriminate.
Defined.

(** Three disconnects, then the address: connected. *)
Lemma configure_returns_on_address_witness :
  exists st',
    (forall post,
        configure sdk_ok ssid password
                  (repeat disconnected 3 ++ got_ip :: post) initial_state =
        Returned ESP_OK st') /\
    phase_of st' = Connected /\
    s_retry_num st' = 0 /\
    sem_given st' = false /\
    raises st' = S (raises initial_state) /\
    Z.of_nat (connects st') =
      Z.of_nat (connects initial_state) + 1 +
      Z.of_nat (sta_start_in WIFI_EVENT_STA_START (repeat disconnected 3)) +
      Z.of_nat (disconnected_in WIFI_EVENT_STA_DISCONNECTED
                                (repeat disconnected 3)).
Proof.
  apply (configure_returns_on_address
           _ _ _ esp32_case_labels_distinct sdk_ok ssid password
           (repeat disconnected 3) got_ip initial_state).
  - exact sdk_ok_all_ok.
  - exact sdk_ok_has_semaphore.
  - vm_compute. discriminate.
  - apply disconnects_have_no_address.
  - vm_compute. discriminate.
  - reflexivity.
Defined.


(** The run that ends with the address, read from its result. *)
Lemma configure_ok_means_connected_or_failed_witness :
  let st' := final (configure sdk_ok ssid password [got_ip] initial_state) in
  sem_given st' = false /\
  ((phase_of st' = Connected /\ s_retry_num st' = 0) \/
   (phase_of st' = Failed /\ s_retry_num st' = MAX_RETRY)).
Proof.
  apply (configure_ok_means_connected_or_failed
           WIFI_EVENT_STA_START WIFI_EVENT_STA_DISCONNECTED
           IP_EVENT_STA_GOT_IP sdk_ok ssid password [got_ip] initial_state).
  - vm_compute. split; discriminate.
  - vm_compute. reflexivity.
Defined.

(** No semaphore: [ESP_FAIL] even though an address is on its way. *)
Lemma configure_fails_without_semaphore_witness :
  exists st',
    configure sdk_no_semaphore ssid password [got_ip] initial_state =
      Returned ESP_FAIL st' /\
    trace st' = (trace initial_state ++ failed_creation_calls)%list /\
    s_ip_semaphore st' = 0 /\
    s_retry_num st' = s_retry_num initial_state /\
    s_sta_netif st' = s_sta_netif initial_state /\
    instance_any_id st' = instance_any_id initial_state /\
    instance_got_ip st' = instance_got_ip initial_state /\
    count is_register (trace st') = count is_register (trace initial_state) /\
    count is_connect (trace st') = count is_connect (trace initial_state) /\
    count is_take (trace st') = count is_take (trace initial_state) /\
    count is_shutdown_registration (trace st') =
      count is_shutdown_registration (trace initial_state).
Proof.
  apply (configure_fails_without_semaphore
           WIFI_EVENT_STA_START WIFI_EVENT_STA_DISCONNECTED
           IP_EVENT_STA_GOT_IP sdk_no_semaphore ssid password [got_ip]
           initial_state).
  - reflexivity.
  - reflexivity.
Defined.

(** A disconnect that dies on the NULL instance: the failed unregister is
    the last call. *)
Lemma abort_means_last_sdk_call_failed_witness :
  exists tr c,
    trace (final (wifi_api_disconnect sdk_null_instance_rejected
                                      initial_state)) = (tr ++ [c])%list /\
    sdk_ret sdk_null_instance_rejected tr c = 258 /\
    258 <> ESP_OK.
Proof.
  apply (proj1 (proj2 (abort_means_last_sdk_call_failed
                         WIFI_EVENT_STA_START WIFI_EVENT_STA_DISCONNECTED
                         IP_EVENT_STA_GOT_IP sdk_null_instance_rejected))
           initial_state 258
           (final (wifi_api_disconnect sdk_null_instance_rejected
                                       initial_state))).
  vm_compute. reflexivity.
Defined.

(** Twelve access points found, ten printed. *)
Lemma scan_is_read_only_witness :
  let st' := final (wifi_api_scan sdk_twelve_aps initial_state) in
  List.length (authmode_lines (trace st')) =
  (List.length (authmode_lines (trace initial_state)) +
   Nat.min 10 (List.length (sdk_scan sdk_twelve_aps
                                     (trace initial_state ++ scan_prefix))))%nat.
Proof.
  apply (scan_is_read_only sdk_twelve_aps initial_state).
  vm_compute. reflexivity.
Defined.

(** A full slot stays full through a station start. *)
Lemma handler_frame_witness :
  let st := run [got_ip] initial_state in
  sem_given (run [started] st) = true.
Proof.
  apply (handler_frame WIFI_EVENT_STA_START WIFI_EVENT_STA_DISCONNECTED
                       IP_EVENT_STA_GOT_IP [started]
                       (run [got_ip] initial_state)).
  reflexivity.
Defined.

(** Configure, then disconnect. *)
Lemma disconnect_releases_what_configure_acquired_witness :
  let st1 := final (configure sdk_ok ssid password [got_ip] initial_state) in
  let st2 := final (wifi_api_disconnect sdk_ok st1) in
  handles st1 = (1073620000, SEM, 1073630000, 1073640000) /\
  trace st2 =
    (trace st1 ++
     [ESP_LOG LOGI "Disconnecting Wi-Fi..." [];
      esp_event_handler_instance_unregister WIFI_EVENT_ANY_ID 1073630000;
      esp_event_handler_instance_unregister IP_EVENT_GOT_IP 1073640000;
      vSemaphoreDelete SEM;
      esp_wifi_disconnect])%list.
Proof.
  intros st1 st2.
  destruct (disconnect_releases_what_configure_acquired
              WIFI_EVENT_STA_START WIFI_EVENT_STA_DISCONNECTED
              IP_EVENT_STA_GOT_IP sdk_ok ssid password [got_ip]
              initial_state st1) as (Hh & _ & Hd).
  { vm_compute. reflexivity. }
  split; [exact Hh |].
  apply (Hd ESP_OK st2). vm_compute. reflexivity.
Defined.

(** Two disconnects after a configure: two deletes of one semaphore. *)
Lemma disconnect_twice_deletes_twice_witness :
  let st := final (configure sdk_ok ssid password [got_ip] initial_state) in
  let st1 := final (wifi_api_disconnect sdk_ok st) in
  let st2 := final (wifi_api_disconnect sdk_ok st1) in
  count (is_delete_of (s_ip_semaphore st)) (trace st2) =
  (count (is_delete_of (s_ip_semaphore st)) (trace st) + 2)%nat.
Proof.
  intros st st1 st2.
  apply (disconnect_twice_deletes_twice sdk_ok st ESP_OK st1 ESP_OK st2).
  - vm_compute. discriminate.
  - vm_compute. reflexivity.
  - vm_compute. reflexivity.
Defined.

(** A teardown that fails at the second step: the interface survives. *)
Example shutdown_stops_at_failed_deinit :
  wifi_api_shutdown deinit_fails 1073620000 =
  TeardownAborted 12289 1073620000
    [SHUTDOWN_LOG "Shutting down Wi-Fi..."; esp_wifi_stop; esp_wifi_deinit].
Proof. reflexivity. Qed.
